(** * taroize: template resolution of WXML markup (template.ts)

    A shallow embedding of [buildTemplateName], [getSrcRelPath],
    [preParseTemplate], [parseTemplate], [getWxmlSource] and [parseModule],
    with the properties of their specification.

    Conventions of the embedding:
    - a JavaScript string is a [string]; its characters are the code units
      below 256.  The tests of the source on characters ([/wx/i], digits,
      ['/'], ['.']) are all on ASCII characters;
    - a call that can throw returns a [completion]; a call that can recurse
      without bound takes a fuel and returns [None] when it runs out;
    - a [Set] is the list of its elements in insertion order; a [Set] of
      objects compares them by identity, which the record of an object
      carries;
    - a [NodePath] says whether it has a container: [path.remove] and
      [path.replaceWith] throw on a path that has none;
    - the collaborators imported from [./utils], [./wxml], [node:path] and
      [@tarojs/helper] are the fields of type classes;
    - [updateLogFileContent] and [console.error] only write diagnostics
      and are left out. *)

From Stdlib Require Import String Ascii List ZArith Lia Bool.
From stdpp Require Import base option list strings gmap.

Import ListNotations.
Local Open Scope string_scope.
Local Open Scope list_scope.

(** ** JavaScript strings *)

Module JsString.

(** [s.slice(start, s.length)] for a non-negative [start]. *)
Fixpoint slice (start : nat) (s : string) : string :=
  match start, s with
  | 0, _ => s
  | S n, String _ rest => slice n rest
  | S _, EmptyString => EmptyString
  end.

(** [s.startsWith(p)] *)
Definition startsWith (s p : string) : bool := String.prefix p s.

(** [s.includes(sub)] *)
Fixpoint includes (s sub : string) : bool :=
  String.prefix sub s ||
  match s with
  | EmptyString => false
  | String _ rest => includes rest sub
  end.

(** [s.indexOf(p) === 0] *)
Definition indexOf_is_0 (s p : string) : bool := String.prefix p s.

(** [s.replace(/\\/g, '/')] *)
Fixpoint replace_backslashes (s : string) : string :=
  match s with
  | EmptyString => EmptyString
  | String c rest =>
      String (if Ascii.eqb c "\"%char then "/"%char else c)
             (replace_backslashes rest)
  end.

(** the double quote, as a one-character string *)
Definition dquote : string := String (ascii_of_nat 34) EmptyString.

(** [arr.join('')]: [undefined] elements count as the empty string. *)
Definition join (arr : list (option string)) : string :=
  fold_right (fun o acc => default "" o +:+ acc) "" arr.

End JsString.

(** ** Completions and errors *)

Record Position := { col : Z; row : Z }.

Inductive JsError :=
| Error (message : string)
| TypeError (message : string)
| ReferenceError (message : string)
| IReportError (message : string) (msg : string) (target : string)
               (code : string) (position : Position)
| SystemError (syscall : string) (path : string).

Inductive completion (A : Type) :=
| Normal (a : A)
| Throw (e : JsError).
Arguments Normal {A} a.
Arguments Throw {A} e.

(** A computation that may throw, and may run out of fuel ([None]). *)
Definition M (A : Type) : Type := option (completion A).

Definition ret {A} (a : A) : M A := Some (Normal a).
Definition throw {A} (e : JsError) : M A := Some (Throw e).

Notation "'let!' x ':=' c 'in' k" :=
  (match c with
   | Some (Normal x) => k
   | Some (Throw e) => Some (Throw e)
   | None => None
   end)
  (at level 10, x pattern, c at level 100, k at level 200, only parsing).

(** ** The syntax tree (the node types of [@babel/types] the code reads
    or builds) *)

Record SourceStart := { line : Z; column : Z }.

Inductive JSXName :=
| JSXIdentifier (name : string)
| JSXNamespacedName (namespace name : string)
| JSXMemberExpression (object property : string).

(** [position] is the [position.start] the WXML parser attaches to a node,
    [None] when [position] or its [start] is missing.  [OtherNode] is a node
    of any other type, with the children a traversal visits. *)
Local Unset Elimination Schemes.
Inductive Node :=
| StringLiteral (value : string)
| Identifier (name : string)
| ThisExpression
| MemberExpression (object property : Node) (computed : bool)
| ConditionalExpression (test consequent alternate : Node)
| JSXEmptyExpression
| JSXExpressionContainer (expression : Node)
| JSXText (value : string)
| JSXElement (openingElement : OpeningElement) (closingElement : option JSXName)
             (children : list Node) (selfClosing : bool)
             (position : option SourceStart)
| OtherNode (type : string) (operands : list Node)
with OpeningElement :=
| JSXOpeningElement (name : JSXName) (attributes : list Attribute)
                    (selfClosing : bool) (position : option SourceStart)
with Attribute :=
| JSXAttribute (name : JSXName) (value : option Node)
| JSXSpreadAttribute (argument : Node).
Local Set Elimination Schemes.

(** [t.jSXElement(opening, closing, children, selfClosing)] *)
Definition jSXElement (opening : OpeningElement) (closing : option JSXName)
    (children : list Node) (selfClosing : bool) : Node :=
  JSXElement opening closing children selfClosing None.

(** [t.jSXOpeningElement(name, attributes)]: [selfClosing] defaults to
    [false]. *)
Definition jSXOpeningElement (name : JSXName) (attributes : list Attribute)
  : OpeningElement :=
  JSXOpeningElement name attributes false None.

(** [t.jSXClosingElement(name)] *)
Definition jSXClosingElement (name : JSXName) : option JSXName := Some name.

(** A path of a traversal: whether [path.container] is set, and
    [path.node]. *)
Record NodePath := { container : bool; node : Node }.

(** What a call did to the node of its path. *)
Inductive Mutation :=
| Untouched
| Removed
| Replaced (by_node : Node).

(** [path.node?.position?.start || { line: 0, column: 0 }], as the
    [{ col, row }] of a report *)
Definition positionOf (start : option SourceStart) : Position :=
  match start with
  | Some s => {| col := column s; row := line s |}
  | None => {| col := 0; row := 0 |}
  end.

(** [attrs.find(attr => t.isJSXAttribute(attr) &&
    t.isJSXIdentifier(attr.get('name')) && attr.node.name.name === key)] *)
Definition findAttribute (key : string) (attrs : list Attribute)
  : option Attribute :=
  List.find
    (fun attr =>
       match attr with
       | JSXAttribute (JSXIdentifier n) _ => String.eqb n key
       | _ => false
       end)
    attrs.

(** ** Collaborators *)

(** [./utils] *)
Class Utils := {
  pascalName : string -> string;
  astToCode : Node -> option string;
  buildBlockElement : Node;
  rootPath : string  (* [setting.rootPath] *)
}.

(** [astToCode(node) || ''] *)
Definition codeOf `{Utils} (n : Node) : string := default "" (astToCode n).

(** [node:path] *)
Module Path.
Class Lib := {
  join : string -> string -> string;
  relative : string -> string -> string;
  extname : string -> string;
  dirname : string -> string;
  resolve : string -> string -> string
}.
End Path.

(** The file system behind [fs] of [@tarojs/helper]. *)
Inductive FsEntry :=
| File (content : string)
| Directory.

Definition existsSync (fs : gmap string FsEntry) (p : string) : bool :=
  bool_decide (is_Some (fs !! p)).

Definition readFileSync (fs : gmap string FsEntry) (p : string)
  : completion string :=
  match fs !! p with
  | Some (File content) => Normal content
  | Some Directory => Throw (SystemError "read" p)
  | None => Throw (SystemError "open" p)
  end.

(** ** The identifier sanitizer *)

Definition is_w (c : ascii) : bool := Ascii.eqb c "w" || Ascii.eqb c "W".
Definition is_x (c : ascii) : bool := Ascii.eqb c "x" || Ascii.eqb c "X".

(** [/wx/i.test(name)]: some two adjacent characters are [w] then [x], in
    either case. *)
Fixpoint test_wx (name : string) : bool :=
  match name with
  | String a (String b _ as rest) => (is_w a && is_x b) || test_wx rest
  | _ => false
  end.

(** [parseFloat] of a one-character string; [None] is [NaN]. *)
Definition parseFloat (c : ascii) : option nat :=
  let n := nat_of_ascii c in
  if ((48 <=? n) && (n <=? 57))%nat then Some (n - 48) else None.

(** the white space of [Number(...)] among the characters below 256 *)
Definition isStrWhiteSpace (c : ascii) : bool :=
  let n := nat_of_ascii c in
  (((9 <=? n) && (n <=? 13)) || (n =? 32) || (n =? 160))%nat.

(** [isFinite] of a one-character string: [Number] of it is a digit's
    value, 0 for white space, [NaN] otherwise. *)
Definition isFinite (c : ascii) : bool :=
  match parseFloat c with
  | Some _ => true
  | None => isStrWhiteSpace c
  end.

Definition isNumeric (c : ascii) : bool :=
  negb (match parseFloat c with None => true | Some _ => false end)
  && isFinite c.

Definition NumberWords : list string :=
  ["z"; "b"; "c"; "d"; "e"; "f"; "g"; "h"; "i"; "j"; "k"].

(** [NumberWords[word]] for a numeric character [word]: the element at
    the index the character denotes, [undefined] out of range. *)
Definition NumberWords_at (word : ascii) : option string :=
  match parseFloat word with
  | Some d => nth_error NumberWords d
  | None => None
  end.

(** The loop [for (const word of words) ...] with its pushes. *)
Definition replaceNumeric (words : string) : list (option string) :=
  fold_left
    (fun str word =>
       if isNumeric word
       then str ++ [NumberWords_at word]
       else str ++ [Some (String word EmptyString)])
    (list_ascii_of_string words) [].

Section Sanitizer.
Context `{Utils}.

(** [buildTemplateName(name, pascal = true)]; the recursive call passes
    no [pascal], which is then [true]. *)
Fixpoint buildTemplateName (fuel : nat) (name : string) (pascal : bool)
  : option string :=
  match fuel with
  | 0 => None
  | S fuel' =>
      if test_wx name
      then buildTemplateName fuel' ("taro-" +:+ JsString.slice 2 name) true
      else
        let words :=
          if pascal then pascalName (name +:+ "-tmpl") else name +:+ "-tmpl" in
        Some (JsString.join (replaceNumeric words))
  end.

End Sanitizer.

(** ** The path resolver *)

Section PathResolver.
Context `{Utils} `{Path.Lib}.

Definition getSrcRelPath (fs : gmap string FsEntry) (dirPath srcPath : string)
  : completion string :=
  if JsString.startsWith srcPath "/" then
    let absolutPath := Path.join rootPath (JsString.slice 1 srcPath) in
    if negb (existsSync fs absolutPath)
       && negb (existsSync fs (absolutPath +:+ ".wxml"))
    then
      Throw (Error ("import/include 的 src 请填入正确路径再进行转换：src="
                    +:+ JsString.dquote +:+ srcPath +:+ JsString.dquote))
    else
      let relativePath :=
        JsString.replace_backslashes (Path.relative dirPath absolutPath) in
      if negb (JsString.indexOf_is_0 relativePath ".")
      then Normal ("./" +:+ relativePath)
      else Normal relativePath
  else Normal srcPath.

End PathResolver.

(** ** Sets, in insertion order *)

Section JsSet.
Context {A : Type} `{EqDecision A}.

Definition Set_has (s : list A) (x : A) : bool := bool_decide (x ∈ s).

Definition Set_add (x : A) (s : list A) : list A :=
  if Set_has s x then s else s ++ [x].

Definition Set_delete (x : A) (s : list A) : list A :=
  filter (λ y, y ≠ x) s.

(** [new Set()] followed by [add] of each element of [adds] in turn *)
Definition Set_of (adds : list A) : list A :=
  fold_left (fun s x => Set_add x s) adds [].

(** [set.forEach(cb)] where [cb] may delete elements of the set it
    iterates: the entries are visited in insertion order, and an entry
    deleted before its turn is skipped.  [entries] are the entries at the
    start, [live] reads the current set out of the state. *)
Fixpoint Set_forEach {S : Type} (entries : list A) (live : S -> list A)
    (cb : A -> S -> S) (st : S) : S :=
  match entries with
  | [] => st
  | x :: rest =>
      Set_forEach rest live cb (if Set_has (live st) x then cb x st else st)
  end.

End JsSet.

(** ** WXS modules and the reference set of a template definition *)

(** An object of [wxses].  [usedWxses] is a [Set] of these objects, which
    compares them by identity: [identity] tells the objects apart, two
    objects with the same [module] and [src] being different elements of the
    set.  One object has one [identity] and one pair of fields. *)
Record WXS := { identity : nat; module : string; src : string }.

#[global] Instance WXS_eq_dec : EqDecision WXS.
Proof. solve_decision. Defined.

(** The inner loop [wxses.forEach] for one [refId]: the state is
    [(usedWxses, refIds)]. *)
Definition moveOne (wxses : list WXS) (refId : string)
    (st : list WXS * list string) : list WXS * list string :=
  fold_left
    (fun st wxsId =>
       if JsString.includes (module wxsId) refId
       then (Set_add wxsId (fst st), Set_delete refId (snd st))
       else st)
    wxses st.

(** The double loop over [refIds] and [wxses]; [refdata] is [refIds]
    itself, which the callback deletes from. *)
Definition moveWxses (wxses : list WXS) (refIds : list string)
  : list WXS * list string :=
  Set_forEach refIds snd (moveOne wxses) ([], refIds).

(** The loop deleting the loop identifiers other than [firstId];
    [Array.from(refIds)[0]] is [undefined] for an empty set. *)
Definition pruneLoopIds (loopIds refIds : list string) : list string :=
  let firstId := head refIds in
  Set_forEach refIds id
    (fun id refIds =>
       if Set_has loopIds id && bool_decide (Some id ≠ firstId)
       then Set_delete id refIds
       else refIds)
    refIds.

(** ** The template pre-scanner *)

Definition lift_fuel {A} (o : option A) : M A :=
  match o with
  | Some a => ret a
  | None => None
  end.

Record PreParsed := {
  pre_name : string;
  pre_funcs : list string;
  pre_applies : list string
}.

Section PreScanner.
Context `{Utils}.

(** The [JSXAttribute] handler: the state is [(templateFuncs,
    templateApplies)]. *)
Definition onJSXAttribute (attr : Attribute) (st : list string * list string)
  : list string * list string :=
  match attr with
  | JSXAttribute _
      (Some (JSXExpressionContainer
               (MemberExpression ThisExpression (Identifier funcName) _))) =>
      if negb (Set_has (fst st) funcName)
      then (Set_add funcName (fst st), snd st)
      else st
  | _ => st
  end.

(** The [JSXOpeningElement] handler; [root] is the node of the scanned
    template, whose code the report carries. *)
Definition onJSXOpeningElement (fuel : nat) (root : Node) (p : OpeningElement)
    (st : list string * list string) : M (list string * list string) :=
  match p with
  | JSXOpeningElement _ attrs _ position =>
      match findAttribute "is" attrs with
      | Some (JSXAttribute _ value) =>
          match value with
          | None =>
              throw (IReportError "template 的 `is` 属性不能为空"
                       "TemplateIsAttributeEmptyError" "WXML_FILE"
                       (codeOf root) (positionOf position))
          | Some (StringLiteral v) =>
              let! apply := lift_fuel (buildTemplateName fuel v true) in
              ret (fst st, Set_add apply (snd st))
          | Some _ => ret st
          end
      | _ => ret st
      end
  end.

(** [path.traverse({ JSXAttribute, JSXOpeningElement })]: depth first, a
    node's handler before its children, the children in the order of the
    visitor keys. *)
Fixpoint traverse (fuel : nat) (root : Node) (n : Node)
    (st : list string * list string) {struct n}
  : M (list string * list string) :=
  match n with
  | JSXElement opening _ children _ _ =>
      let! st1 := traverseOpening fuel root opening st in
      (fix each (l : list Node) st :=
         match l with
         | [] => ret st
         | x :: rest => let! st' := traverse fuel root x st in each rest st'
         end) children st1
  | JSXExpressionContainer e => traverse fuel root e st
  | MemberExpression o p _ =>
      let! st1 := traverse fuel root o st in traverse fuel root p st1
  | ConditionalExpression c a b =>
      let! st1 := traverse fuel root c st in
      let! st2 := traverse fuel root a st1 in
      traverse fuel root b st2
  | OtherNode _ operands =>
      (fix each (l : list Node) st :=
         match l with
         | [] => ret st
         | x :: rest => let! st' := traverse fuel root x st in each rest st'
         end) operands st
  | _ => ret st
  end
with traverseOpening (fuel : nat) (root : Node) (p : OpeningElement)
    (st : list string * list string) {struct p}
  : M (list string * list string) :=
  match p with
  | JSXOpeningElement _ attrs _ _ =>
      let! st1 := onJSXOpeningElement fuel root p st in
      (fix each (l : list Attribute) st :=
         match l with
         | [] => ret st
         | a :: rest =>
             let! st' := traverseAttribute fuel root a st in each rest st'
         end) attrs st1
  end
with traverseAttribute (fuel : nat) (root : Node) (a : Attribute)
    (st : list string * list string) {struct a}
  : M (list string * list string) :=
  match a with
  | JSXAttribute _ value =>
      let st1 := onJSXAttribute a st in
      match value with
      | Some v => traverse fuel root v st1
      | None => ret st1
      end
  | JSXSpreadAttribute argument => traverse fuel root argument st
  end.

(** The result is [None] for [undefined].  The type of [path] makes its
    node a [JSXElement]; on another node [attrs.find] is not a
    function. *)
Definition preParseTemplate (fuel : nat) (path : NodePath)
  : M (option PreParsed) :=
  if negb (container path) then ret None
  else
    match node path with
    | JSXElement (JSXOpeningElement _ attrs _ _) _ _ _ position =>
        match findAttribute "name" attrs with
        | Some (JSXAttribute _ value) =>
            match value with
            | Some (StringLiteral v) =>
                let! templateName := lift_fuel (buildTemplateName fuel v true) in
                let! st := traverse fuel (node path) (node path) ([], []) in
                ret (Some {| pre_name := templateName;
                             pre_funcs := fst st;
                             pre_applies := snd st |})
            | _ =>
                throw (IReportError "template 的 `name` 属性只能是字符串"
                         "TemplateNameTypeMismatchError" "WXML_FILE"
                         (codeOf (node path)) (positionOf position))
            end
        | _ => ret None
        end
    | _ => throw (TypeError "attrs.find is not a function")
    end.

End PreScanner.

(** ** The template resolver *)

(** [buildRender(returned, stateKeys, propsKeys, templateType)] of
    [./utils] builds the render method; the method is kept as the call
    that builds it. *)
Inductive ClassMethod :=
| buildRender (returned : Node) (stateKeys propsKeys : list string)
              (templateType : option (list string)).

(** [t.classDeclaration(id, superClass, t.classBody(body), [])] with its
    [decorators] *)
Record ClassDeclaration := {
  class_id : string;
  superClass : Node;
  class_body : list ClassMethod;
  decorators : list Node
}.

Record TemplateResult := {
  name : string;
  ast : ClassDeclaration;
  tmplName : string;
  usedWxses : list WXS
}.

(** [block.children = children] *)
Definition withChildren (block : Node) (children : list Node) : Node :=
  match block with
  | JSXElement opening closing _ selfClosing position =>
      JSXElement opening closing children selfClosing position
  | other => other
  end.

(** [path.remove()] and [path.replaceWith(node)]: they change the tree
    through the container of the path, and throw on a path that has none. *)
Definition remove (path : NodePath) : completion Mutation :=
  if container path then Normal Removed
  else Throw (ReferenceError "Container is falsy").
Definition replaceWith (path : NodePath) (n : Node) : completion Mutation :=
  if container path then Normal (Replaced n)
  else Throw (ReferenceError "Container is falsy").

(** [try { ... } catch (error) { }] around a change of the tree *)
Definition try_ignore (c : completion Mutation) : Mutation :=
  match c with
  | Normal m => m
  | Throw _ => Untouched
  end.

(** [./wxml].  [traverseWxmlVisitor node dirPath] is
    [path.traverse(createWxmlVisitor(loopIds, refIds, dirPath, [], imports))]
    on fresh sets: the identifiers it adds to [loopIds] and to [refIds], in
    the order of the additions, and the children of the node afterwards.
    [parseWXML] threads the diagnostics list [errors]. *)
Class Wxml := {
  Imports : Type;
  traverseWxmlVisitor :
    Node -> string -> completion (list string * list string * list Node);
  parseWXML :
    string -> string -> bool -> list string ->
    completion (option Node * list Imports) * list string
}.

Section Resolver.
Context `{Utils} `{Wxml}.

(** The element both literal forms of [is] are replaced with. *)
Definition invocationElement (className : string) (data : option Attribute)
  : Node :=
  let attributes :=
    match data with
    | Some (JSXAttribute n v) => [JSXAttribute n v]
    | _ => []
    end in
  jSXElement
    (jSXOpeningElement (JSXIdentifier className) attributes)
    (jSXClosingElement (JSXIdentifier className))
    [] true.

(** The block a conditional [is] is replaced with. *)
Definition conditionalBlock (data : option Attribute)
    (test consequent alternate : Node) : Node :=
  let attributes :=
    match data with
    | Some (JSXAttribute n v) => [JSXAttribute n v]
    | _ => []
    end in
  let candidate (branch : Node) :=
    jSXElement
      (jSXOpeningElement (JSXIdentifier "Template")
         (attributes ++ [JSXAttribute (JSXIdentifier "is") (Some branch)]))
      (jSXClosingElement (JSXIdentifier "Template"))
      [] true in
  withChildren buildBlockElement
    [JSXExpressionContainer
       (ConditionalExpression test (candidate consequent)
          (candidate alternate))].

(** The surviving [refIds] and the [usedWxses] of a definition. *)
Definition resolveRefIds (wxses : list WXS) (loopIds refIds : list string)
  : list WXS * list string :=
  let moved := moveWxses wxses refIds in
  (fst moved, pruneLoopIds loopIds (snd moved)).

Definition templateClass (className : string) (children : list Node)
    (refIds : list string) : ClassDeclaration :=
  let block := withChildren buildBlockElement children in
  let render :=
    if (List.length refIds =? 0)%nat then buildRender block [] [] None
    else buildRender block [] refIds (Some []) in
  {| class_id := className;
     superClass :=
       MemberExpression (Identifier "React") (Identifier "Component") false;
     class_body := [render];
     decorators :=
       [OtherNode "Decorator"
          [OtherNode "CallExpression"
             [Identifier "withWeapp"; OtherNode "ObjectExpression" []]]] |}.

Definition isStringLiteral (n : Node) : bool :=
  match n with
  | StringLiteral _ => true
  | _ => false
  end.

(** The result pairs what happened to the node with the value returned,
    [None] for [undefined]. *)
Definition parseTemplate (fuel : nat) (path : NodePath) (dirPath : string)
    (wxses : list WXS) : M (Mutation * option TemplateResult) :=
  match container path, node path with
  | true, JSXElement (JSXOpeningElement _ attrs _ _) _ _ _ position =>
      let is_ := findAttribute "is" attrs in
      let data := findAttribute "data" attrs in
      let name_ := findAttribute "name" attrs in
      match name_ with
      | Some (JSXAttribute _ value) =>
          match value with
          | Some (StringLiteral templateName) =>
              let! className :=
                lift_fuel (buildTemplateName fuel templateName true) in
              let! visited :=
                Some (traverseWxmlVisitor (node path) dirPath) in
              let loopIds := Set_of (fst (fst visited)) in
              let refIds := Set_of (snd (fst visited)) in
              let children := snd visited in
              let resolved := resolveRefIds wxses loopIds refIds in
              let classDecl :=
                templateClass className children (snd resolved) in
              let! m := Some (remove path) in
              ret (m, Some {| name := className;
                              ast := classDecl;
                              tmplName := templateName;
                              usedWxses := fst resolved |})
          | _ => throw (Error "template 的 `name` 属性只能是字符串")
          end
      | _ =>
          match is_ with
          | Some (JSXAttribute _ value) =>
              match value with
              | None =>
                  throw (IReportError "template 的 `is` 属性不能为空"
                           "TemplateIsAttributeEmptyError" "WXML_FILE"
                           (codeOf (node path)) (positionOf position))
              | Some (StringLiteral v) =>
                  let! className :=
                    lift_fuel (buildTemplateName fuel v true) in
                  let! m :=
                    Some (replaceWith path
                            (invocationElement className data)) in
                  ret (m, None)
              | Some (JSXExpressionContainer (StringLiteral v)) =>
                  let! className :=
                    lift_fuel (buildTemplateName fuel v true) in
                  let! m :=
                    Some (replaceWith path
                            (invocationElement className data)) in
                  ret (m, None)
              | Some (JSXExpressionContainer
                        (ConditionalExpression test consequent alternate)) =>
                  if negb (isStringLiteral consequent)
                     || negb (isStringLiteral alternate)
                  then
                    throw (IReportError
                             "当 template is 标签是三元表达式时，他的两个值都必须为字符串"
                             "TemplateIsAttributeTypeMismatchError"
                             "WXML_FILE"
                             (codeOf (node path)) (positionOf position))
                  else
                    let! m :=
                      Some (replaceWith path
                              (conditionalBlock data test consequent
                                 alternate)) in
                    ret (m, None)
              | Some _ => ret (Untouched, None)
              end
          | _ =>
              throw (IReportError
                       "template 标签必须指名 `is` 或 `name` 任意一个标签"
                       "TemplateMissingIsNameError" "WXML_FILE"
                       (codeOf (node path)) (positionOf position))
          end
      end
  | _, _ => ret (Untouched, None)
  end.

End Resolver.

(** ** The module importer and includer *)

Inductive ModuleType :=
| include
| import.

(** The text of [type] in a message. *)
Definition typeName (type : ModuleType) : string :=
  match type with
  | include => "include"
  | import => "import"
  end.

Section Importer.
Context `{Utils} `{Path.Lib} `{Wxml}.

(** [errors] is the diagnostics list of [./global]; the result pairs the
    text returned with the list afterwards. *)
Definition getWxmlSource (fs : gmap string FsEntry) (dirPath src : string)
    (type : string) (errors : list string) : string * list string :=
  let attempt :=
    let filePath := Path.join dirPath src in
    let filePath :=
      if String.eqb (Path.extname filePath) "" then filePath +:+ ".wxml"
      else filePath in
    readFileSync fs filePath in
  match attempt with
  | Normal file => (file, errors)
  | Throw _ =>
      (EmptyString,
       errors ++ ["找不到这个路径的 wxml: <" +:+ type +:+ " src="
                  +:+ JsString.dquote +:+ src +:+ JsString.dquote
                  +:+ " />，该标签将会被忽略掉"])
  end.

(** The result pairs the completion (what happened to the node, and the
    value returned, [None] for [undefined]) with the diagnostics list
    afterwards.  The type of [jsx] makes its node a [JSXElement]. *)
Definition parseModule (fs : gmap string FsEntry) (jsx : NodePath)
    (dirPath : string) (type : ModuleType) (errors : list string)
  : completion (Mutation * option (list Imports)) * list string :=
  match node jsx with
  | JSXElement (JSXOpeningElement _ attrs _ _) _ _ _ position =>
      let report msg kind :=
        Throw (IReportError msg kind "WXML_FILE" (codeOf (node jsx))
                 (positionOf position)) in
      match findAttribute "src" attrs with
      | None =>
          (report (typeName type +:+ " 标签必须包含 `src` 属性")
             "WxmlTagSrcAttributeError", errors)
      | Some src_ =>
          let dirPath :=
            if negb (String.eqb (Path.extname dirPath) "")
            then Path.dirname dirPath else dirPath in
          match src_ with
          | JSXSpreadAttribute _ =>
              (report (typeName type +:+ " 标签 src AST 节点 必须包含 node")
                 "WxmlTagSrcAttributeError", errors)
          | JSXAttribute _ (Some (StringLiteral value)) =>
              match getSrcRelPath fs dirPath value with
              | Throw _ =>
                  (report "相对路径解析失败" "ImportSrcPathFormatError", errors)
              | Normal srcValue =>
                  match type with
                  | import =>
                      let '(wxml, errors1) :=
                        getWxmlSource fs dirPath srcValue (typeName type)
                          errors in
                      let '(parsed, errors2) :=
                        parseWXML (Path.resolve dirPath srcValue) wxml true
                          errors1 in
                      match parsed with
                      | Throw e => (Throw e, errors2)
                      | Normal (_, imports) =>
                          let m := try_ignore (remove jsx) in
                          (Normal (m, Some imports), errors2)
                      end
                  | include =>
                      let '(wxmlStr, errors1) :=
                        getWxmlSource fs dirPath srcValue (typeName type)
                          errors in
                      let block := buildBlockElement in
                      if String.eqb wxmlStr "" then
                        match remove jsx with
                        | Throw e => (Throw e, errors1)
                        | Normal m => (Normal (m, None), errors1)
                        end
                      else
                        let '(parsed, errors2) :=
                          parseWXML (Path.resolve dirPath srcValue) wxmlStr
                            true errors1 in
                        match parsed with
                        | Throw e => (Throw e, errors2)
                        | Normal (wxml, _) =>
                            let m :=
                              try_ignore
                                match wxml with
                                | Some w => replaceWith jsx w
                                | None =>
                                    replaceWith jsx
                                      (withChildren block
                                         [JSXExpressionContainer
                                            JSXEmptyExpression])
                                end in
                            (Normal (m, None), errors2)
                        end
                  end
              end
          | JSXAttribute _ _ =>
              (report (typeName type +:+ " 标签的 src 属性值必须是一个字符串")
                 "WxmlTagSrcAttributeError", errors)
          end
      end
  | _ => (Throw (TypeError "attrs.find is not a function"), errors)
  end.

End Importer.

(** ** The properties of the specification, in its words *)

(** The letters of the alphabet [z,b,c,d,e,f,g,h,i,j,k]. *)
Definition alphabet : list ascii :=
  ["z"; "b"; "c"; "d"; "e"; "f"; "g"; "h"; "i"; "j"; "k"]%char.

(** The letter of the alphabet at the digit value of [c]. *)
Definition numberLetter (c : ascii) : ascii :=
  nth (nat_of_ascii c - 48) alphabet c.

(** A numeric character becomes its letter, any other is kept. *)
Definition replaced (c : ascii) : ascii :=
  if isNumeric c then numberLetter c else c.

(** The case-transformed intermediate string of a call that returns. *)
Definition caseTransformed `{Utils} (name : string) (pascal : bool) : string :=
  if test_wx name then pascalName (("taro-" +:+ JsString.slice 2 name) +:+ "-tmpl")
  else if pascal then pascalName (name +:+ "-tmpl")
  else name +:+ "-tmpl".

(** What the loop pushes for one character. *)
Definition pushed (word : ascii) : option string :=
  if isNumeric word then NumberWords_at word
  else Some (String word EmptyString).

(** Some module of [wxses] has a name that includes [refId]. *)
Definition matched (wxses : list WXS) (refId : string) : bool :=
  existsb (fun wxsId => JsString.includes (module wxsId) refId) wxses.

(** The attribute list of the replacing element: the [data] attribute when
    there is one. *)
Definition carried (attrs : list Attribute) : list Attribute :=
  match findAttribute "data" attrs with
  | Some data => [data]
  | None => []
  end.

Definition isConditional (n : Node) : bool :=
  match n with
  | ConditionalExpression _ _ _ => true
  | _ => false
  end.

(** The file [getWxmlSource] reads. *)
Definition targetFile `{Path.Lib} (dirPath src : string) : string :=
  let filePath := Path.join dirPath src in
  if String.eqb (Path.extname filePath) "" then filePath +:+ ".wxml"
  else filePath.

(** The directory [parseModule] resolves [src] in. *)
Definition moduleDir `{Path.Lib} (dirPath : string) : string :=
  if negb (String.eqb (Path.extname dirPath) "") then Path.dirname dirPath
  else dirPath.

(** The diagnostic of a file that cannot be read. *)
Definition notFoundDiagnostic (type src : string) : string :=
  "找不到这个路径的 wxml: <" +:+ type +:+ " src="
  +:+ JsString.dquote +:+ src +:+ JsString.dquote
  +:+ " />，该标签将会被忽略掉".

(** Modelled from the spec: [parseWXML] of [./wxml], the markup parser, is
    not among the sources.  The specification has an unreadable target
    replaced by empty content, after which the tag is removed and yields no
    result, and has a callee push to the diagnostics list without clearing
    or reordering the entries of its caller: on the empty source text the
    parser completes, produces no import records, and may only append to
    the diagnostics. *)
Definition parseWXML_empty_source `{Wxml} : Prop :=
  forall (path : string) (errors : list string),
    exists wxml pushed,
      parseWXML path EmptyString true errors
      = (Normal (wxml, []), errors ++ pushed).

(** ** Instances of the collaborators, for the examples *)

Module Sample.

Definition upper (c : ascii) : ascii :=
  let n := nat_of_ascii c in
  if ((97 <=? n) && (n <=? 122))%nat then ascii_of_nat (n - 32) else c.

Definition separator (c : ascii) : bool :=
  Ascii.eqb c "-" || Ascii.eqb c "_" || Ascii.eqb c " ".

(** Words split on separators, each with a capital first letter. *)
Fixpoint pascal (capital : bool) (s : string) : string :=
  match s with
  | EmptyString => EmptyString
  | String c rest =>
      if separator c then pascal true rest
      else String (if capital then upper c else c) (pascal false rest)
  end.

Definition Block : Node :=
  jSXElement (jSXOpeningElement (JSXIdentifier "Block") [])
    (jSXClosingElement (JSXIdentifier "Block")) [] false.

#[export] Instance utils : Utils := {|
  pascalName := pascal true;
  astToCode := fun _ => None;
  buildBlockElement := Block;
  rootPath := "/project"
|}.

(** Paths are joined with a slash and never have an extension. *)
#[export] Instance paths : Path.Lib := {|
  Path.join := fun a b => a +:+ "/" +:+ b;
  Path.relative := fun _ to => to;
  Path.extname := fun _ => EmptyString;
  Path.dirname := fun p => p;
  Path.resolve := fun a b => a +:+ "/" +:+ b
|}.

(** A visitor that finds the references [item], [utils] and [index], the
    first and the last of them bound by loops, and a parser that finds
    nothing. *)
#[export] Instance wxml : Wxml := {|
  Imports := string;
  traverseWxmlVisitor := fun n _ =>
    Normal (["item"; "index"], ["item"; "utils"; "index"], []);
  parseWXML := fun _ _ _ errors => (Normal (None, []), errors)
|}.

(** [<template ...attrs />] at line 3, column 4 *)
Definition template (attrs : list Attribute) : Node :=
  JSXElement (JSXOpeningElement (JSXIdentifier "template") attrs false None)
    (Some (JSXIdentifier "template")) [] false
    (Some {| line := 3; column := 4 |}).

Definition attr (key : string) (value : Node) : Attribute :=
  JSXAttribute (JSXIdentifier key) (Some value).

(** [data={bar}] *)
Definition data : Attribute :=
  attr "data" (JSXExpressionContainer (Identifier "bar")).

(** [cond ? "a" : "b"] and [cond ? "a" : someVar] *)
Definition bothLiterals : Node :=
  JSXExpressionContainer
    (ConditionalExpression (Identifier "cond") (StringLiteral "a")
       (StringLiteral "b")).
Definition oneVariable : Node :=
  JSXExpressionContainer
    (ConditionalExpression (Identifier "cond") (StringLiteral "a")
       (Identifier "someVar")).

Definition attached (n : Node) : NodePath :=
  {| container := true; node := n |}.
Definition detached (n : Node) : NodePath :=
  {| container := false; node := n |}.

End Sample.

(** ** Further definitions for the statements and the examples *)

(** [f] applied to every character of a string. *)
Fixpoint mapChars (f : ascii -> ascii) (s : string) : string :=
  match s with
  | EmptyString => EmptyString
  | String c rest => String (f c) (mapChars f rest)
  end.

(** The string has a backslash. *)
Fixpoint hasBackslash (s : string) : bool :=
  match s with
  | EmptyString => false
  | String c rest => Ascii.eqb c "\"%char || hasBackslash rest
  end.


(** Both sets of the second state hold those of the first. *)
Definition grows (st st' : list string * list string) : Prop :=
  fst st ⊆ fst st' /\ snd st ⊆ snd st'.

(** A simplified POSIX [node:path], with extensions and directories. *)
Module Posix.

Fixpoint ext_rev (r acc : list ascii) : list ascii :=
  match r with
  | [] => []
  | c :: rest =>
      if Ascii.eqb c "/" then []
      else if Ascii.eqb c "." then c :: acc
      else ext_rev rest (c :: acc)
  end.

Definition extname (p : string) : string :=
  string_of_list_ascii (ext_rev (rev (list_ascii_of_string p)) []).

Fixpoint dir_rev (r : list ascii) : list ascii :=
  match r with
  | [] => []
  | c :: rest => if Ascii.eqb c "/" then rest else dir_rev rest
  end.

Definition dirname (p : string) : string :=
  string_of_list_ascii (rev (dir_rev (rev (list_ascii_of_string p)))).

(** [to] without the leading [from] and slash, when it has them. *)
Fixpoint relative (from to : string) : string :=
  match from, to with
  | EmptyString, String c rest => if Ascii.eqb c "/" then rest else to
  | String a from', String b to' =>
      if Ascii.eqb a b then
        let r := relative from' to' in
        if String.eqb r to' then to else r
      else to
  | _, _ => to
  end.

#[export] Instance paths : Path.Lib := {|
  Path.join := fun a b => a +:+ "/" +:+ b;
  Path.relative := relative;
  Path.extname := extname;
  Path.dirname := dirname;
  Path.resolve := fun a b => a +:+ "/" +:+ b
|}.

(** A project with one template file, one empty file and one directory. *)
Definition files : gmap string FsEntry :=
  {[ "/project/tpl/row.wxml" := File "<view>row</view>";
     "/project/pages/./empty.wxml" := File EmptyString;
     "/project/pages/./row.wxml" := File "<view>row</view>";
     "/project/lib" := Directory ]}.

(** [<import src=... />] and [<include src=... />] *)
Definition tag (tagName : string) (attrs : list Attribute) : NodePath :=
  {| container := true;
     node :=
       JSXElement (JSXOpeningElement (JSXIdentifier tagName) attrs true None)
         None [] true (Some {| line := 7; column := 2 |}) |}.

End Posix.

(** The property keys of the render methods of a definition. *)
Definition renderKeys (r : TemplateResult) : list (list string) :=
  map (fun method =>
         match method with
         | buildRender _ _ propsKeys _ => propsKeys
         end)
    (class_body (ast r)).

(** Further visitors and a module, for the examples. *)
Module Cases.

Definition utils : WXS :=
  {| identity := 1; module := "utils"; src := "./utils.wxs" |}.


(** A visitor that finds the data references [ut] and [list], bound by no
    loop. *)
#[export] Instance dataOnly : Wxml := {|
  Imports := string;
  traverseWxmlVisitor := fun n _ => Normal ([], ["ut"; "list"], []);
  parseWXML := fun _ _ _ errors => (Normal (None, []), errors)
|}.

End Cases.

(** * Theorems *)

(** ** The identifier sanitizer *)

Lemma test_wx_unfold (a b : ascii) (s : string) :
  test_wx (String a (String b s)) = (is_w a && is_x b) || test_wx (String b s).
Proof. reflexivity. Qed.

Lemma test_wx_cons (a : ascii) (s : string) :
  test_wx s = true -> test_wx (String a s) = true.
Proof.
  destruct s as [|b s]; [discriminate|].
  intros Hs. rewrite test_wx_unfold, Hs. apply orb_true_r.
Qed.

Lemma test_wx_slice (n : nat) :
  forall s, test_wx (JsString.slice n s) = true -> test_wx s = true.
Proof.
  induction n as [|n IH]; intros s Hs; [exact Hs|].
  destruct s as [|a s]; [discriminate|].
  apply test_wx_cons, IH, Hs.
Qed.

Lemma test_wx_taro (s : string) : test_wx ("taro-" +:+ s) = test_wx s.
Proof. destruct s; reflexivity. Qed.

Lemma test_wx_ro (s : string) : test_wx ("ro-" +:+ s) = test_wx s.
Proof. destruct s; reflexivity. Qed.

Lemma slice_taro (s : string) : JsString.slice 2 ("taro-" +:+ s) = "ro-" +:+ s.
Proof. reflexivity. Qed.

(** A match past the first two characters is never consumed: every
    recursive call has it again. *)
Lemma buildTemplateName_loops `{Utils} (fuel : nat) :
  forall name pascal,
    test_wx (JsString.slice 2 name) = true ->
    buildTemplateName fuel name pascal = None.
Proof.
  induction fuel as [|fuel IH]; intros name pascal Hin; [reflexivity|].
  cbn [buildTemplateName]. rewrite (test_wx_slice 2 name Hin).
  apply IH. rewrite slice_taro, test_wx_ro. exact Hin.
Qed.

(** Otherwise two calls are enough. *)
Lemma buildTemplateName_returns `{Utils} (fuel : nat) (name : string)
    (pascal : bool) :
  test_wx (JsString.slice 2 name) = false ->
  buildTemplateName (S (S fuel)) name pascal
  = Some (JsString.join (replaceNumeric (caseTransformed name pascal))).
Proof.
  intros Hout. unfold caseTransformed. cbn [buildTemplateName].
  destruct (test_wx name); [|reflexivity].
  rewrite test_wx_taro, Hout. reflexivity.
Qed.

Lemma buildTemplateName_Some `{Utils} (fuel : nat) (name : string)
    (pascal : bool) (out : string) :
  buildTemplateName fuel name pascal = Some out ->
  test_wx (JsString.slice 2 name) = false
  /\ out = JsString.join (replaceNumeric (caseTransformed name pascal)).
Proof.
  intros Hout.
  destruct (test_wx (JsString.slice 2 name)) eqn:Hin.
  - rewrite buildTemplateName_loops in Hout by exact Hin. discriminate.
  - split; [reflexivity|].
    destruct fuel as [|[|fuel]].
    + discriminate.
    + cbn in Hout. destruct (test_wx name) eqn:Hn; [discriminate|].
      unfold caseTransformed. rewrite Hn. congruence.
    + rewrite buildTemplateName_returns in Hout by exact Hin. congruence.
Qed.

(** With fuel for two calls, no result means a match past the first two
    characters. *)
Lemma buildTemplateName_None `{Utils} (fuel : nat) (name : string)
    (pascal : bool) :
  buildTemplateName (S (S fuel)) name pascal = None ->
  test_wx (JsString.slice 2 name) = true.
Proof.
  intros Hnone. destruct (test_wx (JsString.slice 2 name)) eqn:Hin;
    [reflexivity|].
  rewrite buildTemplateName_returns in Hnone by exact Hin. discriminate.
Qed.

(** C1 (code defect): [buildTemplateName] does not terminate on a name
    that has [wx] past its first two characters.  On ["my-wx-list"] the
    test [/wx/i] holds, the call recurses on ["taro--wx-list"], then on
    ["taro-ro--wx-list"], and so on: no amount of fuel gives a result. *)
Theorem buildTemplateName_diverges_on_inner_wx `{Utils} :
  forall fuel pascal, buildTemplateName fuel "my-wx-list" pascal = None.
Proof.
  intros fuel pascal. apply buildTemplateName_loops. reflexivity.
Qed.

(** The calls that return are those on a name with no [wx] past its first
    two characters. *)
Lemma buildTemplateName_returns_iff `{Utils} (name : string) (pascal : bool) :
  (exists fuel out, buildTemplateName fuel name pascal = Some out)
  <-> test_wx (JsString.slice 2 name) = false.
Proof.
  split.
  - intros (fuel & out & Hout).
    apply (buildTemplateName_Some fuel name pascal out Hout).
  - intros Hout. exists 2. eexists. apply buildTemplateName_returns, Hout.
Qed.

(** A character is numeric exactly when it is a decimal digit. *)
Lemma isNumeric_digit (c : ascii) :
  isNumeric c = true <-> (48 <= nat_of_ascii c <= 57)%nat.
Proof.
  unfold isNumeric, isFinite, parseFloat.
  destruct ((48 <=? nat_of_ascii c)%nat) eqn:Hlo;
    destruct ((nat_of_ascii c <=? 57)%nat) eqn:Hhi; simpl;
    rewrite ?Nat.leb_le, ?Nat.leb_gt in *; split; try lia; discriminate.
Qed.

Lemma replaceNumeric_fold (l : list ascii) :
  forall acc,
    fold_left
      (fun str word =>
         if isNumeric word
         then str ++ [NumberWords_at word]
         else str ++ [Some (String word EmptyString)])
      l acc
    = acc ++ map pushed l.
Proof.
  induction l as [|c l IH]; intros acc.
  - cbn. symmetry. apply app_nil_r.
  - cbn [fold_left map]. rewrite IH. unfold pushed at 2.
    destruct (isNumeric c); rewrite <- app_assoc; reflexivity.
Qed.

Lemma replaceNumeric_map (words : string) :
  replaceNumeric words = map pushed (list_ascii_of_string words).
Proof. unfold replaceNumeric. apply replaceNumeric_fold. Qed.

Lemma pushed_replaced (c : ascii) :
  default EmptyString (pushed c) = String (replaced c) EmptyString.
Proof.
  destruct c as [[] [] [] [] [] [] [] []]; reflexivity.
Qed.

Lemma replaced_not_numeric (c : ascii) : isNumeric (replaced c) = false.
Proof.
  destruct c as [[] [] [] [] [] [] [] []]; reflexivity.
Qed.

Lemma join_pushed (l : list ascii) :
  list_ascii_of_string (JsString.join (map pushed l)) = map replaced l.
Proof.
  induction l as [|c l IH]; [reflexivity|].
  change (JsString.join (map pushed (c :: l)))
    with (default EmptyString (pushed c) +:+ JsString.join (map pushed l)).
  rewrite pushed_replaced.
  change (list_ascii_of_string
            (String (replaced c) EmptyString +:+ JsString.join (map pushed l)))
    with (replaced c :: list_ascii_of_string (JsString.join (map pushed l))).
  rewrite IH. reflexivity.
Qed.

(** C2: the string a call of [buildTemplateName] returns is, character by
    character, the case-transformed intermediate string with every numeric
    character replaced by the letter of [z,b,c,d,e,f,g,h,i,j,k] at its
    digit value and every other character kept; no character of it is
    numeric. *)
Theorem buildTemplateName_no_numeric `{Utils} (fuel : nat) (name : string)
    (pascal : bool) (out : string) :
  buildTemplateName fuel name pascal = Some out ->
  list_ascii_of_string out
  = map replaced (list_ascii_of_string (caseTransformed name pascal))
  /\ Forall (fun c => isNumeric c = false) (list_ascii_of_string out).
Proof.
  intros Hout.
  destruct (buildTemplateName_Some fuel name pascal out Hout) as [_ ->].
  rewrite replaceNumeric_map, join_pushed. split; [reflexivity|].
  apply List.Forall_forall. intros c Hc.
  apply in_map_iff in Hc as (c0 & <- & _). apply replaced_not_numeric.
Qed.

Lemma buildTemplateName_no_numeric_witness :
  @buildTemplateName Sample.utils 2 "wx-item2" true = Some "TaroItemcTmpl"
  /\ list_ascii_of_string "TaroItemcTmpl"
     = map replaced
         (list_ascii_of_string
            (@caseTransformed Sample.utils "wx-item2" true))
  /\ Forall (fun c => isNumeric c = false)
       (list_ascii_of_string "TaroItemcTmpl").
Proof.
  split; [reflexivity|].
  apply (@buildTemplateName_no_numeric Sample.utils 2 "wx-item2" true
           "TaroItemcTmpl").
  reflexivity.
Defined.

(** ** The path resolver *)

(** C8: [getSrcRelPath] fails exactly when [srcPath] starts with a slash
    and neither the target joined to the project root nor that target with
    [.wxml] appended exists; a [srcPath] that does not start with a slash is
    returned unchanged, whatever the file system holds. *)
Theorem getSrcRelPath_fails_iff `{Utils} `{Path.Lib}
    (fs : gmap string FsEntry) (dirPath srcPath : string) :
  let absolutPath := Path.join rootPath (JsString.slice 1 srcPath) in
  ((exists e, getSrcRelPath fs dirPath srcPath = Throw e)
   <-> JsString.startsWith srcPath "/" = true
       /\ existsSync fs absolutPath = false
       /\ existsSync fs (absolutPath +:+ ".wxml") = false)
  /\ (JsString.startsWith srcPath "/" = false ->
      forall fs', getSrcRelPath fs' dirPath srcPath = Normal srcPath).
Proof.
  intros absolutPath. split.
  - unfold getSrcRelPath. fold absolutPath.
    destruct (JsString.startsWith srcPath "/").
    + destruct (existsSync fs absolutPath);
        destruct (existsSync fs (absolutPath +:+ ".wxml")); cbn.
      all: try (destruct (negb _)).
      all: split; [intros [e He]; discriminate He || auto
                  | intros (_ & H1 & H2); discriminate || eauto].
    + split; [intros [e He]; discriminate He | intros [Hs _]; discriminate Hs].
  - intros Hrel fs'. unfold getSrcRelPath. rewrite Hrel. reflexivity.
Qed.

Lemma getSrcRelPath_fails_iff_witness :
  (exists e,
     @getSrcRelPath Sample.utils Sample.paths ∅ "/project/pages" "/tpl/row"
     = Throw e)
  /\ @getSrcRelPath Sample.utils Sample.paths ∅ "/project/pages" "./row.wxml"
     = Normal "./row.wxml".
Proof.
  pose proof (@getSrcRelPath_fails_iff Sample.utils Sample.paths ∅
                "/project/pages" "/tpl/row") as [Hfail _].
  pose proof (@getSrcRelPath_fails_iff Sample.utils Sample.paths ∅
                "/project/pages" "./row.wxml") as [_ Hrel].
  split.
  - apply Hfail. repeat split; reflexivity.
  - apply Hrel. reflexivity.
Defined.

(** ** Sets *)

Section JsSetFacts.
Context {A : Type} `{EqDecision A}.
Implicit Types (x y : A) (s entries : list A).

Lemma Set_has_true s x : Set_has s x = true <-> x ∈ s.
Proof. unfold Set_has. apply bool_decide_eq_true. Qed.

Lemma Set_has_false s x : Set_has s x = false <-> x ∉ s.
Proof. unfold Set_has. apply bool_decide_eq_false. Qed.

Lemma elem_of_Set_add x y s : y ∈ Set_add x s <-> y = x \/ y ∈ s.
Proof.
  unfold Set_add. destruct (Set_has s x) eqn:Hx.
  - apply Set_has_true in Hx. split; [auto|]. intros [->|Hy]; assumption.
  - rewrite elem_of_app, list_elem_of_singleton. tauto.
Qed.

Lemma NoDup_Set_add x s : NoDup s -> NoDup (Set_add x s).
Proof.
  intros Hs. unfold Set_add. destruct (Set_has s x) eqn:Hx; [exact Hs|].
  apply Set_has_false in Hx. apply NoDup_app. split; [exact Hs|].
  split; [|apply NoDup_singleton].
  intros y Hy Hin. apply list_elem_of_singleton in Hin. subst y. auto.
Qed.

Lemma NoDup_Set_of (adds : list A) : NoDup (Set_of adds).
Proof.
  unfold Set_of. generalize (NoDup_nil_2 (A := A)).
  generalize (@nil A). induction adds as [|x adds IH]; intros s Hs.
  - exact Hs.
  - cbn [fold_left]. apply IH, NoDup_Set_add, Hs.
Qed.

Lemma elem_of_Set_delete x y s : y ∈ Set_delete x s <-> y ≠ x /\ y ∈ s.
Proof. unfold Set_delete. exact (list_elem_of_filter (fun z => z ≠ x) s y). Qed.

Lemma NoDup_Set_delete x s : NoDup s -> NoDup (Set_delete x s).
Proof. apply NoDup_filter. Qed.

Lemma Set_delete_absent x s : x ∉ s -> Set_delete x s = s.
Proof.
  intros Hx. unfold Set_delete. induction s as [|y s IH]; [reflexivity|].
  apply not_elem_of_cons in Hx as [Hne Hx].
  rewrite filter_cons_True by congruence. f_equal. apply IH, Hx.
Qed.

Lemma Set_delete_twice x s : Set_delete x (Set_delete x s) = Set_delete x s.
Proof.
  apply Set_delete_absent. rewrite elem_of_Set_delete. tauto.
Qed.

Lemma filter_all (P : A -> Prop) `{!forall x, Decision (P x)} s :
  (forall x, x ∈ s -> P x) -> filter P s = s.
Proof.
  induction s as [|y s IH]; intros Hall; [reflexivity|].
  rewrite filter_cons_True by (apply Hall; left).
  f_equal. apply IH. intros x Hx. apply Hall. right. exact Hx.
Qed.

Lemma filter_iff_in (P Q : A -> Prop) `{!forall x, Decision (P x)}
    `{!forall x, Decision (Q x)} s :
  (forall x, x ∈ s -> P x <-> Q x) -> filter P s = filter Q s.
Proof.
  induction s as [|y s IH]; intros Hall; [reflexivity|].
  assert (filter P s = filter Q s) as Hs.
  { apply IH. intros x Hx. apply Hall. right. exact Hx. }
  destruct (decide (P y)) as [Hy|Hy].
  - rewrite !filter_cons_True; [f_equal; exact Hs| |exact Hy].
    apply Hall; [left|exact Hy].
  - rewrite !filter_cons_False; [exact Hs| |exact Hy].
    intros HQ. apply Hy, Hall; [left|exact HQ].
Qed.

(** A [forEach] whose callback deletes the visited element when [P]
    holds of it, and nothing else, deletes the elements of [P]. *)
Lemma Set_forEach_delete (P : A -> bool) entries :
  forall s,
    Set_forEach entries id (fun x s => if P x then Set_delete x s else s) s
    = filter (fun y => ~ (P y = true /\ y ∈ entries)) s.
Proof.
  induction entries as [|x entries IH]; intros s.
  - cbn. symmetry. apply filter_all. intros y _ [_ Hy].
    inversion Hy.
  - cbn [Set_forEach]. rewrite IH.
    assert ((if Set_has (id s) x
             then if P x then Set_delete x s else s else s)
            = filter (fun y => ~ (P x = true /\ y = x)) s) as ->.
    { destruct (P x) eqn:HP.
      - destruct (Set_has (id s) x) eqn:Hx.
        + unfold Set_delete. apply list_filter_iff. intros y. tauto.
        + apply Set_has_false in Hx. rewrite <- (Set_delete_absent x s Hx) at 1.
          unfold Set_delete. apply list_filter_iff. intros y. tauto.
      - assert (s = filter (fun y => ~ (false = true /\ y = x)) s) as Hs.
        { symmetry. apply filter_all. intros y _ [Hf _]. discriminate. }
        destruct (Set_has (id s) x); exact Hs. }
    rewrite list_filter_filter. apply list_filter_iff. intros y.
    rewrite elem_of_cons. split.
    + intros [H1 H2] [HP [->|Hy]]; [apply H2; auto | apply H1; auto].
    + intros Hn. split.
      * intros [HP Hy]. apply Hn. auto.
      * intros [HP ->]. apply Hn. auto.
Qed.

End JsSetFacts.

(** ** The reference set of a template definition *)

Lemma matched_true (wxses : list WXS) (refId : string) :
  matched wxses refId = true
  <-> exists w, w ∈ wxses /\ JsString.includes (module w) refId = true.
Proof.
  unfold matched. rewrite existsb_exists. split.
  - intros (w & Hw & Hi). exists w. split; [apply list_elem_of_In, Hw|exact Hi].
  - intros (w & Hw & Hi). exists w. split; [apply list_elem_of_In, Hw|exact Hi].
Qed.

Lemma matched_false (wxses : list WXS) (refId : string) :
  matched wxses refId = false
  <-> forall w, w ∈ wxses -> JsString.includes (module w) refId = false.
Proof.
  rewrite <- not_true_iff_false, matched_true. split.
  - intros Hn w Hw. apply not_true_iff_false. intros Hi. apply Hn. eauto.
  - intros Hall (w & Hw & Hi). rewrite (Hall w Hw) in Hi. discriminate.
Qed.

Lemma moveOne_snd (wxses : list WXS) (refId : string) :
  forall st,
    snd (moveOne wxses refId st)
    = if matched wxses refId then Set_delete refId (snd st) else snd st.
Proof.
  unfold moveOne, matched.
  induction wxses as [|w wxses IH]; intros st; [reflexivity|].
  cbn [fold_left existsb]. rewrite IH.
  destruct (JsString.includes (module w) refId); cbn [orb snd]; [|reflexivity].
  rewrite Set_delete_twice. destruct (existsb _ wxses); reflexivity.
Qed.

Lemma moveOne_fst (wxses : list WXS) (refId : string) :
  forall st w,
    w ∈ fst (moveOne wxses refId st)
    <-> w ∈ fst st
        \/ (w ∈ wxses /\ JsString.includes (module w) refId = true).
Proof.
  unfold moveOne.
  induction wxses as [|w0 wxses IH]; intros st w.
  - cbn. split; [auto|]. intros [Hw|[Hw _]]; [exact Hw|inversion Hw].
  - cbn [fold_left]. rewrite IH, elem_of_cons.
    destruct (JsString.includes (module w0) refId) eqn:Hi; cbn [fst].
    + rewrite elem_of_Set_add. split.
      * intros [[->|Hw]|[Hw Hi']]; auto.
      * intros [Hw|[[->|Hw] Hi']]; auto.
    + split.
      * intros [Hw|[Hw Hi']]; auto.
      * intros [Hw|[[->|Hw] Hi']]; auto. congruence.
Qed.

Lemma moveWxses_unfold (wxses : list WXS) (refIds : list string) :
  moveWxses wxses refIds
  = Set_forEach refIds snd (moveOne wxses) ([], refIds).
Proof. reflexivity. Qed.

(** The references left by the double loop: those no module matches, in
    their order. *)
Lemma moveWxses_snd_forEach (wxses : list WXS) (entries : list string) :
  forall st,
    snd (Set_forEach entries snd (moveOne wxses) st)
    = Set_forEach entries id
        (fun x s => if matched wxses x then Set_delete x s else s) (snd st).
Proof.
  induction entries as [|x entries IH]; intros st; [reflexivity|].
  cbn [Set_forEach]. rewrite IH. f_equal. unfold id.
  destruct (Set_has (snd st) x); [apply moveOne_snd|reflexivity].
Qed.

Lemma moveWxses_snd (wxses : list WXS) (refIds : list string) :
  snd (moveWxses wxses refIds)
  = filter (fun r => matched wxses r = false) refIds.
Proof.
  rewrite moveWxses_unfold, moveWxses_snd_forEach, Set_forEach_delete.
  apply filter_iff_in. intros r Hr. cbn [snd] in Hr.
  destruct (matched wxses r).
  - split; [|discriminate]. intros Hn. exfalso. apply Hn. auto.
  - split; [reflexivity|]. intros _ [Hm _]. discriminate.
Qed.

Lemma moveWxses_fst_forEach (wxses : list WXS) (entries : list string) :
  forall st w,
    w ∈ fst (Set_forEach entries snd (moveOne wxses) st)
    <-> w ∈ fst st
        \/ (w ∈ wxses
            /\ exists r, r ∈ entries /\ r ∈ snd st
                         /\ JsString.includes (module w) r = true).
Proof.
  induction entries as [|x entries IH]; intros st w.
  - cbn. split; [auto|]. intros [Hw|(_ & r & Hr & _)]; [exact Hw|inversion Hr].
  - cbn [Set_forEach]. rewrite IH. clear IH.
    destruct (Set_has (snd st) x) eqn:Hx.
    + apply Set_has_true in Hx. rewrite moveOne_fst, moveOne_snd. split.
      * intros [[Hw|[Hw Hi]]|(Hw & r & Hr & Hlive & Hi)].
        -- auto.
        -- right. split; [exact Hw|]. exists x. split_and!; [left|exact Hx|exact Hi].
        -- right. split; [exact Hw|]. exists r. split_and!; [right; exact Hr| |exact Hi].
           destruct (matched wxses x); [|exact Hlive].
           apply elem_of_Set_delete in Hlive. tauto.
      * intros [Hw|(Hw & r & Hr & Hlive & Hi)]; [auto|].
        destruct (decide (r = x)) as [->|Hne]; [auto|].
        apply elem_of_cons in Hr as [->|Hr]; [congruence|].
        right. split; [exact Hw|]. exists r. split_and!; [exact Hr| |exact Hi].
        destruct (matched wxses x); [|exact Hlive].
        apply elem_of_Set_delete. auto.
    + apply Set_has_false in Hx. split.
      * intros [Hw|(Hw & r & Hr & Hlive & Hi)]; [auto|].
        right. split; [exact Hw|]. exists r. split_and!; [right; exact Hr|exact Hlive|exact Hi].
      * intros [Hw|(Hw & r & Hr & Hlive & Hi)]; [auto|].
        apply elem_of_cons in Hr as [->|Hr]; [contradiction|].
        right. split; [exact Hw|]. exists r. auto.
Qed.

(** What the double loop does: a reference is still in [refIds] exactly
    when it was collected and no module of [wxses] has a name that
    contains it as a substring, and a module is in [usedWxses] exactly when
    it is one of [wxses] and its name contains a collected reference. *)
Lemma moveWxses_partition (wxses : list WXS) (refIds : list string) :
  (forall r,
     r ∈ snd (moveWxses wxses refIds)
     <-> r ∈ refIds
         /\ forall w, w ∈ wxses -> JsString.includes (module w) r = false)
  /\ (forall w,
        w ∈ fst (moveWxses wxses refIds)
        <-> w ∈ wxses
            /\ exists r, r ∈ refIds
                         /\ JsString.includes (module w) r = true).
Proof.
  split.
  - intros r. rewrite moveWxses_snd, list_elem_of_filter, matched_false. tauto.
  - intros w. rewrite moveWxses_unfold, moveWxses_fst_forEach. cbn [fst snd].
    split.
    + intros [Hw|(Hw & r & Hr & _ & Hi)]; [inversion Hw|eauto].
    + intros (Hw & r & Hr & Hi). right. eauto 6.
Qed.

Lemma pruneLoopIds_filter (loopIds refIds : list string) :
  pruneLoopIds loopIds refIds
  = filter (fun id => ~ (id ∈ loopIds /\ Some id ≠ head refIds)) refIds.
Proof.
  unfold pruneLoopIds.
  rewrite (Set_forEach_delete
             (fun id => Set_has loopIds id
                        && bool_decide (Some id ≠ head refIds))).
  apply filter_iff_in. intros id Hid.
  rewrite andb_true_iff, Set_has_true, bool_decide_eq_true. tauto.
Qed.

Lemma NoDup_length_le_1 {A : Type} (l : list A) :
  NoDup l -> (forall x y, x ∈ l -> y ∈ l -> x = y) -> (length l <= 1)%nat.
Proof.
  intros Hnd Hall. destruct l as [|a [|b l]]; cbn; [lia|lia|].
  exfalso. apply NoDup_cons in Hnd as [Ha _]. apply Ha.
  rewrite (Hall a b); [left|left|right; left].
Qed.

Lemma NoDup_moveWxses (wxses : list WXS) (refIds : list string) :
  NoDup refIds -> NoDup (snd (moveWxses wxses refIds)).
Proof. intros Hnd. rewrite moveWxses_snd. apply NoDup_filter, Hnd. Qed.

Lemma NoDup_pruneLoopIds (loopIds refIds : list string) :
  NoDup refIds -> NoDup (pruneLoopIds loopIds refIds).
Proof. intros Hnd. rewrite pruneLoopIds_filter. apply NoDup_filter, Hnd. Qed.


(** ** The template resolver *)

Section ResolverFacts.
Context `{Utils} `{Wxml}.

(** A template definition: the class is built from the children after the
    traversal and the reference set of [resolveRefIds], the node is
    removed. *)
Lemma parseTemplate_definition (fuel : nat) (path : NodePath)
    (dirPath : string) (wxses : list WXS) tag attrs sc pos closing children
    selfClosing position attrName templateName className loopAdds refAdds
    childrenAfter :
  container path = true ->
  node path
  = JSXElement (JSXOpeningElement tag attrs sc pos) closing children
      selfClosing position ->
  findAttribute "name" attrs
  = Some (JSXAttribute attrName (Some (StringLiteral templateName))) ->
  buildTemplateName fuel templateName true = Some className ->
  traverseWxmlVisitor (node path) dirPath
  = Normal (loopAdds, refAdds, childrenAfter) ->
  let resolved :=
    resolveRefIds wxses (Set_of loopAdds) (Set_of refAdds) in
  parseTemplate fuel path dirPath wxses
  = ret (Removed,
         Some {| name := className;
                 ast := templateClass className childrenAfter (snd resolved);
                 tmplName := templateName;
                 usedWxses := fst resolved |}).
Proof.
  intros Hc Hn Hname Hbuild Hvisit resolved.
  unfold parseTemplate, remove. rewrite Hc, Hn, Hname, Hbuild.
  cbn [lift_fuel ret]. rewrite <- Hn, Hvisit. reflexivity.
Qed.

Lemma renderKeys_templateClass (className : string) (children : list Node)
    (refIds : list string) (templateName : string) (used : list WXS) :
  renderKeys {| name := className;
                ast := templateClass className children refIds;
                tmplName := templateName;
                usedWxses := used |}
  = [refIds].
Proof. destruct refIds; reflexivity. Qed.

(** A value returned by [parseTemplate] is that of a definition: the node
    was removed, the render method is built with the references of
    [resolveRefIds] and the modules reported are its modules. *)
Lemma parseTemplate_value (fuel : nat) (path : NodePath) (dirPath : string)
    (wxses : list WXS) (m : Mutation) (r : TemplateResult)
    loopAdds refAdds childrenAfter :
  parseTemplate fuel path dirPath wxses = ret (m, Some r) ->
  traverseWxmlVisitor (node path) dirPath
  = Normal (loopAdds, refAdds, childrenAfter) ->
  let resolved :=
    resolveRefIds wxses (Set_of loopAdds) (Set_of refAdds) in
  m = Removed
  /\ renderKeys r = [snd resolved]
  /\ usedWxses r = fst resolved.
Proof.
  unfold parseTemplate, remove, replaceWith.
  destruct (container path); [|discriminate].
  destruct (node path)
    as [| | | | | | | |[tag attrs sc pos] closing children sc' position|];
    try discriminate.
  destruct (findAttribute "name" attrs)
    as [[attrName [[v| | | | | | | | |]|]|]|]; try discriminate.
  1: { destruct (buildTemplateName fuel v true) as [className|];
         cbn [lift_fuel ret]; [|discriminate].
       destruct (traverseWxmlVisitor _ dirPath) as [visited|e];
         [|discriminate].
       intros Hret Hvisit. injection Hret as <- <-.
       injection Hvisit as ->. cbn [fst snd].
       split_and!; [reflexivity|apply renderKeys_templateClass|reflexivity]. }
  all: repeat match goal with
              | |- context [match ?x with _ => _ end] => destruct x
              end; discriminate.
Qed.

End ResolverFacts.




(** C4 (code defect): the test [wxsId.module.includes(refId)] holds of a
    data reference that is a part of the name of a module.  In the
    definition below the template uses the data [ut] and [list] and the
    module [utils] is known: [ut] is the name of no module, yet it is
    deleted from [refIds], so that the render method is built with [list]
    alone, and [utils] is reported as used. *)
Theorem parseTemplate_drops_substring_reference :
  @traverseWxmlVisitor Cases.dataOnly
    (Sample.template [Sample.attr "name" (StringLiteral "row")])
    "/project/pages"
  = Normal ([], ["ut"; "list"], [])
  /\ module Cases.utils ≠ "ut"
  /\ exists r,
       @parseTemplate Sample.utils Cases.dataOnly 1
         (Sample.attached
            (Sample.template [Sample.attr "name" (StringLiteral "row")]))
         "/project/pages" [Cases.utils]
       = ret (Removed, Some r)
       /\ renderKeys r = [["list"]]
       /\ usedWxses r = [Cases.utils].
Proof.
  split; [reflexivity|]. split; [discriminate|].
  eexists. split_and!; reflexivity.
Qed.

Lemma findAttribute_Some (key : string) (attrs : list Attribute)
    (attr : Attribute) :
  findAttribute key attrs = Some attr ->
  attr ∈ attrs /\ exists value, attr = JSXAttribute (JSXIdentifier key) value.
Proof.
  intros Hfind. apply find_some in Hfind as [Hin Hkey].
  split; [apply list_elem_of_In, Hin|].
  destruct attr as [[n| |] value|]; try discriminate.
  apply String.eqb_eq in Hkey. subst n. eauto.
Qed.

Section InvocationFacts.
Context `{Utils} `{Wxml}.

Lemma invocationElement_carried (className : string)
    (attrs : list Attribute) :
  invocationElement className (findAttribute "data" attrs)
  = JSXElement
      (JSXOpeningElement (JSXIdentifier className) (carried attrs) false None)
      (Some (JSXIdentifier className)) [] true None.
Proof.
  unfold invocationElement, carried.
  destruct (findAttribute "data" attrs) as [data|] eqn:Hdata; [|reflexivity].
  apply findAttribute_Some in Hdata as [_ [value ->]]. reflexivity.
Qed.

(** The guard at the start: a path without a parent container is left as
    it is. *)
Lemma parseTemplate_detached (fuel : nat) (path : NodePath)
    (dirPath : string) (wxses : list WXS) :
  container path = false ->
  parseTemplate fuel path dirPath wxses = ret (Untouched, None).
Proof. intros Hc. unfold parseTemplate. rewrite Hc. reflexivity. Qed.

(** A literal on which [buildTemplateName] does not return: neither does
    [parseTemplate]. *)
Lemma parseTemplate_literal_is_loops (path : NodePath)
    (dirPath : string) (wxses : list WXS) tag attrs sc pos closing children
    selfClosing position isName literal :
  container path = true ->
  node path
  = JSXElement (JSXOpeningElement tag attrs sc pos) closing children
      selfClosing position ->
  findAttribute "name" attrs = None ->
  findAttribute "is" attrs
  = Some (JSXAttribute isName (Some (StringLiteral literal))) ->
  test_wx (JsString.slice 2 literal) = true ->
  forall fuel, parseTemplate fuel path dirPath wxses = None.
Proof.
  intros Hc Hn Hname His Hwx fuel.
  unfold parseTemplate. rewrite Hc, Hn, Hname, His.
  rewrite buildTemplateName_loops by exact Hwx. reflexivity.
Qed.

(** C5, amended: for a template node on a path with a parent container,
    with no [name] attribute and an [is] attribute whose value is a string
    literal, directly or inside an expression container, that has no [wx],
    in either case, after its first two characters: [buildTemplateName]
    returns on the literal, and [parseTemplate] replaces the node with a
    self-closing element named by that result, whose attributes are the
    [data] attribute of the node if it has one and nothing else, and which
    has no children; it returns [undefined]. *)
Theorem parseTemplate_literal_is (fuel : nat) (path : NodePath)
    (dirPath : string) (wxses : list WXS) tag attrs sc pos closing children
    selfClosing position isName value literal :
  container path = true ->
  node path
  = JSXElement (JSXOpeningElement tag attrs sc pos) closing children
      selfClosing position ->
  findAttribute "name" attrs = None ->
  findAttribute "is" attrs = Some (JSXAttribute isName (Some value)) ->
  value = StringLiteral literal
  \/ value = JSXExpressionContainer (StringLiteral literal) ->
  test_wx (JsString.slice 2 literal) = false ->
  exists className,
    buildTemplateName (S (S fuel)) literal true = Some className
    /\ parseTemplate (S (S fuel)) path dirPath wxses
       = ret (Replaced
                (JSXElement
                   (JSXOpeningElement (JSXIdentifier className)
                      (carried attrs) false None)
                   (Some (JSXIdentifier className)) [] true None),
              None).
Proof.
  intros Hc Hn Hname His Hvalue Hwx.
  pose proof (buildTemplateName_returns fuel literal true Hwx) as Hbuild.
  eexists. split; [exact Hbuild|].
  unfold parseTemplate, replaceWith. rewrite Hc, Hn, Hname, His.
  destruct Hvalue as [-> | ->]; rewrite Hbuild; cbn [lift_fuel ret];
    rewrite invocationElement_carried; reflexivity.
Qed.

(** C6, amended: for a template node on a path with a parent container,
    with no [name] attribute and an [is] attribute holding a conditional
    expression in an expression container, [parseTemplate] throws
    [TemplateIsAttributeTypeMismatchError], with the code and the position
    of the node, exactly when the consequent or the alternate is not a
    string literal; when both are, it does not throw and replaces the
    node with the block of the two candidates. *)
Theorem parseTemplate_conditional_is (fuel : nat) (path : NodePath)
    (dirPath : string) (wxses : list WXS) tag attrs sc pos closing children
    selfClosing position isName test consequent alternate :
  container path = true ->
  node path
  = JSXElement (JSXOpeningElement tag attrs sc pos) closing children
      selfClosing position ->
  findAttribute "name" attrs = None ->
  findAttribute "is" attrs
  = Some (JSXAttribute isName
            (Some (JSXExpressionContainer
                     (ConditionalExpression test consequent alternate)))) ->
  ((exists message,
      parseTemplate fuel path dirPath wxses
      = throw (IReportError message "TemplateIsAttributeTypeMismatchError"
                 "WXML_FILE" (codeOf (node path)) (positionOf position)))
   <-> isStringLiteral consequent = false
       \/ isStringLiteral alternate = false)
  /\ (isStringLiteral consequent = true ->
      isStringLiteral alternate = true ->
      parseTemplate fuel path dirPath wxses
      = ret (Replaced
               (conditionalBlock (findAttribute "data" attrs) test
                  consequent alternate),
             None)).
Proof.
  intros Hc Hn Hname His.
  unfold parseTemplate, replaceWith. rewrite Hc, Hn, Hname, His.
  destruct (isStringLiteral consequent), (isStringLiteral alternate);
    cbn [negb orb].
  1: { split; [split|].
       - intros [message Hthrow]. discriminate Hthrow.
       - intros [Hf|Hf]; discriminate Hf.
       - intros _ _. reflexivity. }
  all: split; [split|].
  all: try (intros _; eexists; reflexivity).
  all: try (intros _; auto; fail).
  all: intros Ha Hb; discriminate.
Qed.

(** C10: for a template node with no [name] attribute and an [is]
    attribute whose value is an expression container holding an
    expression that is neither a string literal nor a conditional,
    [parseTemplate] returns [undefined]: it does not throw, and the node
    is neither replaced nor removed. *)
Theorem parseTemplate_other_expression_is (fuel : nat) (path : NodePath)
    (dirPath : string) (wxses : list WXS) tag attrs sc pos closing children
    selfClosing position isName expression :
  node path
  = JSXElement (JSXOpeningElement tag attrs sc pos) closing children
      selfClosing position ->
  findAttribute "name" attrs = None ->
  findAttribute "is" attrs
  = Some (JSXAttribute isName (Some (JSXExpressionContainer expression))) ->
  isStringLiteral expression = false ->
  isConditional expression = false ->
  parseTemplate fuel path dirPath wxses = ret (Untouched, None).
Proof.
  intros Hn Hname His Hlit Hcond.
  unfold parseTemplate. rewrite Hn, Hname, His.
  destruct (container path); [|reflexivity].
  destruct expression; try discriminate; reflexivity.
Qed.

End InvocationFacts.

Lemma parseTemplate_literal_is_witness :
  exists className,
    @buildTemplateName Sample.utils 2 "foo" true = Some className
    /\ @parseTemplate Sample.utils Sample.wxml 2
         (Sample.attached
            (Sample.template
               [Sample.attr "class" (StringLiteral "row");
                Sample.attr "is" (StringLiteral "foo"); Sample.data]))
         "/project/pages" []
       = ret (Replaced
                (JSXElement
                   (JSXOpeningElement (JSXIdentifier className)
                      (carried
                         [Sample.attr "class" (StringLiteral "row");
                          Sample.attr "is" (StringLiteral "foo");
                          Sample.data])
                      false None)
                   (Some (JSXIdentifier className)) [] true None),
              None).
Proof.
  apply (@parseTemplate_literal_is Sample.utils Sample.wxml 0
           (Sample.attached
              (Sample.template
                 [Sample.attr "class" (StringLiteral "row");
                  Sample.attr "is" (StringLiteral "foo"); Sample.data]))
           "/project/pages" [] (JSXIdentifier "template")
           [Sample.attr "class" (StringLiteral "row");
            Sample.attr "is" (StringLiteral "foo"); Sample.data]
           false None (Some (JSXIdentifier "template")) [] false
           (Some {| line := 3; column := 4 |}) (JSXIdentifier "is")
           (StringLiteral "foo") "foo").
  - reflexivity.
  - reflexivity.
  - reflexivity.
  - reflexivity.
  - left. reflexivity.
  - reflexivity.
Defined.

(** C5 as stated fails on a path without a parent container: the node has
    no [name] attribute and a literal [is], and it is left as it is.  It
    fails as well on a path with a parent container when the literal has
    [wx] after its first two characters: [buildTemplateName] does not
    return on ["my-wx-list"], and the node is not replaced, whatever the
    fuel. *)
Lemma parseTemplate_literal_is_detached :
  findAttribute "name" [Sample.attr "is" (StringLiteral "foo"); Sample.data]
  = None
  /\ findAttribute "is" [Sample.attr "is" (StringLiteral "foo"); Sample.data]
     = Some (Sample.attr "is" (StringLiteral "foo"))
  /\ @parseTemplate Sample.utils Sample.wxml 2
       (Sample.detached
          (Sample.template
             [Sample.attr "is" (StringLiteral "foo"); Sample.data]))
       "/project/pages" []
     = ret (Untouched, None)
  /\ forall fuel,
       @parseTemplate Sample.utils Sample.wxml fuel
         (Sample.attached
            (Sample.template [Sample.attr "is" (StringLiteral "my-wx-list")]))
         "/project/pages" []
       = None.
Proof.
  split_and!; try reflexivity.
  apply (@parseTemplate_literal_is_loops Sample.utils Sample.wxml
           (Sample.attached
              (Sample.template
                 [Sample.attr "is" (StringLiteral "my-wx-list")]))
           "/project/pages" [] (JSXIdentifier "template")
           [Sample.attr "is" (StringLiteral "my-wx-list")] false None
           (Some (JSXIdentifier "template")) [] false
           (Some {| line := 3; column := 4 |}) (JSXIdentifier "is")
           "my-wx-list"); reflexivity.
Qed.

Lemma parseTemplate_conditional_is_witness :
  exists message,
    @parseTemplate Sample.utils Sample.wxml 0
      (Sample.attached
         (Sample.template [Sample.attr "is" Sample.oneVariable; Sample.data]))
      "/project/pages" []
    = throw (IReportError message "TemplateIsAttributeTypeMismatchError"
               "WXML_FILE" "" {| col := 4; row := 3 |}).
Proof.
  destruct (@parseTemplate_conditional_is Sample.utils Sample.wxml 0
              (Sample.attached
                 (Sample.template
                    [Sample.attr "is" Sample.oneVariable; Sample.data]))
              "/project/pages" [] (JSXIdentifier "template")
              [Sample.attr "is" Sample.oneVariable; Sample.data]
              false None (Some (JSXIdentifier "template")) [] false
              (Some {| line := 3; column := 4 |}) (JSXIdentifier "is")
              (Identifier "cond") (StringLiteral "a") (Identifier "someVar")
              eq_refl eq_refl eq_refl eq_refl) as [[_ Hthrow] _].
  apply Hthrow. right. reflexivity.
Defined.

(** C6 as stated fails on a node that also has a [name] attribute, which
    is looked at first: with a literal [name] the node is taken as a
    definition and nothing is thrown for a branch that is not a literal;
    with a [name] that is not a literal an [Error] is thrown although both
    branches are literals.  It also fails on a path without a parent
    container, where nothing is thrown. *)
Lemma parseTemplate_conditional_is_with_name :
  (exists result,
     @parseTemplate Sample.utils Sample.wxml 2
       (Sample.attached
          (Sample.template
             [Sample.attr "name" (StringLiteral "row");
              Sample.attr "is" Sample.oneVariable]))
       "/project/pages" []
     = ret (Removed, Some result))
  /\ @parseTemplate Sample.utils Sample.wxml 2
       (Sample.attached
          (Sample.template
             [Sample.attr "name" (JSXExpressionContainer (Identifier "n"));
              Sample.attr "is" Sample.bothLiterals]))
       "/project/pages" []
     = throw (Error "template 的 `name` 属性只能是字符串")
  /\ @parseTemplate Sample.utils Sample.wxml 2
       (Sample.detached
          (Sample.template [Sample.attr "is" Sample.oneVariable]))
       "/project/pages" []
     = ret (Untouched, None).
Proof. split; [eexists; reflexivity|split; reflexivity]. Qed.

Lemma parseTemplate_other_expression_is_witness :
  @parseTemplate Sample.utils Sample.wxml 0
    (Sample.attached
       (Sample.template
          [Sample.attr "is" (JSXExpressionContainer (Identifier "tplName"));
           Sample.data]))
    "/project/pages" []
  = ret (Untouched, None).
Proof.
  apply (@parseTemplate_other_expression_is Sample.utils Sample.wxml 0
           (Sample.attached
              (Sample.template
                 [Sample.attr "is"
                    (JSXExpressionContainer (Identifier "tplName"));
                  Sample.data]))
           "/project/pages" [] (JSXIdentifier "template")
           [Sample.attr "is" (JSXExpressionContainer (Identifier "tplName"));
            Sample.data]
           false None (Some (JSXIdentifier "template")) [] false
           (Some {| line := 3; column := 4 |}) (JSXIdentifier "is")
           (Identifier "tplName")); reflexivity.
Defined.

(** ** The template pre-scanner *)

(** C9, amended: [preParseTemplate] returns [undefined] when the node has
    no parent container, and also when it has one but carries no [name]
    attribute; when it has a parent container and a [name] attribute whose
    value is not a string literal, it throws
    [TemplateNameTypeMismatchError] with the position and the code of the
    node. *)
Theorem preParseTemplate_name_requirement `{Utils} (fuel : nat)
    (path : NodePath) tag attrs sc pos closing children selfClosing position :
  node path
  = JSXElement (JSXOpeningElement tag attrs sc pos) closing children
      selfClosing position ->
  (container path = false -> preParseTemplate fuel path = ret None)
  /\ (container path = true -> findAttribute "name" attrs = None ->
      preParseTemplate fuel path = ret None)
  /\ (forall attrName value,
        container path = true ->
        findAttribute "name" attrs = Some (JSXAttribute attrName value) ->
        (forall literal, value ≠ Some (StringLiteral literal)) ->
        preParseTemplate fuel path
        = throw (IReportError "template 的 `name` 属性只能是字符串"
                   "TemplateNameTypeMismatchError" "WXML_FILE"
                   (codeOf (node path)) (positionOf position))).
Proof.
  intros Hn. unfold preParseTemplate. split_and!.
  - intros ->. reflexivity.
  - intros -> Hname. cbn [negb]. rewrite Hn, Hname. reflexivity.
  - intros attrName value -> Hname Hvalue. cbn [negb]. rewrite Hn, Hname.
    destruct value as [[]|]; try reflexivity.
    exfalso. eapply Hvalue. reflexivity.
Qed.

Lemma preParseTemplate_name_requirement_witness :
  @preParseTemplate Sample.utils 0
    (Sample.attached
       (Sample.template
          [Sample.attr "name" (JSXExpressionContainer (Identifier "n"))]))
  = throw (IReportError "template 的 `name` 属性只能是字符串"
             "TemplateNameTypeMismatchError" "WXML_FILE" ""
             {| col := 4; row := 3 |}).
Proof.
  destruct (@preParseTemplate_name_requirement Sample.utils 0
              (Sample.attached
                 (Sample.template
                    [Sample.attr "name"
                       (JSXExpressionContainer (Identifier "n"))]))
              (JSXIdentifier "template")
              [Sample.attr "name" (JSXExpressionContainer (Identifier "n"))]
              false None (Some (JSXIdentifier "template")) [] false
              (Some {| line := 3; column := 4 |}) eq_refl)
    as (_ & _ & Hthrow).
  apply (Hthrow (JSXIdentifier "name")
           (Some (JSXExpressionContainer (Identifier "n")))).
  - reflexivity.
  - reflexivity.
  - intros literal Heq. discriminate Heq.
Defined.

(** C9 as stated fails on a node that has a parent container and no
    [name] attribute: the requirement is not met, nothing is thrown, and
    [undefined] is returned. *)
Lemma preParseTemplate_without_name :
  findAttribute "name" [Sample.attr "is" (StringLiteral "foo"); Sample.data]
  = None
  /\ @preParseTemplate Sample.utils 2
       (Sample.attached
          (Sample.template
             [Sample.attr "is" (StringLiteral "foo"); Sample.data]))
     = ret None.
Proof. split; reflexivity. Qed.

(** ** The module importer *)

Section ImporterFacts.
Context `{Utils} `{Path.Lib} `{Wxml}.

(** A target that cannot be read gives the empty text and one more
    diagnostic. *)
Lemma getWxmlSource_unreadable (fs : gmap string FsEntry)
    (dirPath src type : string) (errors : list string) (e : JsError) :
  readFileSync fs (targetFile dirPath src) = Throw e ->
  getWxmlSource fs dirPath src type errors
  = (EmptyString, errors ++ [notFoundDiagnostic type src]).
Proof.
  intros Hread. unfold getWxmlSource. fold (targetFile dirPath src).
  rewrite Hread. reflexivity.
Qed.

Lemma getWxmlSource_readable (fs : gmap string FsEntry)
    (dirPath src type : string) (errors : list string) (file : string) :
  readFileSync fs (targetFile dirPath src) = Normal file ->
  getWxmlSource fs dirPath src type errors = (file, errors).
Proof.
  intros Hread. unfold getWxmlSource. fold (targetFile dirPath src).
  rewrite Hread. reflexivity.
Qed.

Lemma try_ignore_remove (jsx : NodePath) :
  try_ignore (remove jsx) = if container jsx then Removed else Untouched.
Proof. unfold remove. destruct (container jsx); reflexivity. Qed.

(** C7, amended: for an [import] tag whose [src] is a string literal that
    [getSrcRelPath] resolves and whose target file cannot be read,
    [getWxmlSource] pushes one diagnostic to [errors] and gives the empty
    text, and [parseModule] hands the empty text to [parseWXML]: it throws
    what [parseWXML] throws, and otherwise returns the import records of
    [parseWXML], the node being removed when its path has a parent container
    and left in the tree when it has none.  When [parseWXML] completes on the
    empty text with no import records and only appends to [errors],
    [parseModule] does not throw and returns no import records. *)
Theorem parseModule_import_unreadable (fs : gmap string FsEntry)
    (jsx : NodePath) (dirPath : string) (errors : list string)
    tag attrs sc pos closing children selfClosing position
    srcName value srcValue e :
  node jsx
  = JSXElement (JSXOpeningElement tag attrs sc pos) closing children
      selfClosing position ->
  findAttribute "src" attrs
  = Some (JSXAttribute srcName (Some (StringLiteral value))) ->
  getSrcRelPath fs (moduleDir dirPath) value = Normal srcValue ->
  readFileSync fs (targetFile (moduleDir dirPath) srcValue) = Throw e ->
  let errors1 := errors ++ [notFoundDiagnostic "import" srcValue] in
  let mutation := if container jsx then Removed else Untouched in
  getWxmlSource fs (moduleDir dirPath) srcValue "import" errors
  = (EmptyString, errors1)
  /\ parseModule fs jsx dirPath import errors
     = (let '(parsed, errors2) :=
          parseWXML (Path.resolve (moduleDir dirPath) srcValue) EmptyString
            true errors1 in
        match parsed with
        | Throw thrown => (Throw thrown, errors2)
        | Normal (_, imports) => (Normal (mutation, Some imports), errors2)
        end)
  /\ (parseWXML_empty_source ->
      exists pushed,
        parseModule fs jsx dirPath import errors
        = (Normal (mutation, Some []), errors1 ++ pushed)).
Proof.
  intros Hn Hsrc Hrel Hread errors1 mutation.
  pose proof (getWxmlSource_unreadable fs (moduleDir dirPath) srcValue
                "import" errors e Hread) as Hsource.
  assert (Hmodule :
    parseModule fs jsx dirPath import errors
    = (let '(parsed, errors2) :=
         parseWXML (Path.resolve (moduleDir dirPath) srcValue) EmptyString
           true errors1 in
       match parsed with
       | Throw thrown => (Throw thrown, errors2)
       | Normal (_, imports) => (Normal (mutation, Some imports), errors2)
       end)).
  { unfold parseModule. rewrite Hn, Hsrc.
    fold (moduleDir dirPath). rewrite Hrel. cbn [typeName].
    rewrite Hsource. fold errors1.
    destruct (parseWXML (Path.resolve (moduleDir dirPath) srcValue)
                EmptyString true errors1) as [[[wxml imports]|thrown] errors2];
      [|reflexivity].
    rewrite try_ignore_remove. reflexivity. }
  split; [exact Hsource|]. split; [exact Hmodule|].
  intros Hempty.
  destruct (Hempty (Path.resolve (moduleDir dirPath) srcValue) errors1)
    as (wxml & pushed & Hparse).
  exists pushed. rewrite Hmodule, Hparse. reflexivity.
Qed.

End ImporterFacts.

Lemma parseModule_import_unreadable_witness :
  @parseModule Sample.utils Sample.paths Sample.wxml ∅
    (Sample.attached
       (JSXElement
          (JSXOpeningElement (JSXIdentifier "import")
             [Sample.attr "src" (StringLiteral "./row")] true None)
          None [] true None))
    "/project/pages" import ["earlier"]
  = (Normal (Removed, Some []),
     ["earlier"; notFoundDiagnostic "import" "./row"]).
Proof.
  destruct (@parseModule_import_unreadable Sample.utils Sample.paths
              Sample.wxml ∅
              (Sample.attached
                 (JSXElement
                    (JSXOpeningElement (JSXIdentifier "import")
                       [Sample.attr "src" (StringLiteral "./row")] true None)
                    None [] true None))
              "/project/pages" ["earlier"] (JSXIdentifier "import")
              [Sample.attr "src" (StringLiteral "./row")] true None None []
              true None (JSXIdentifier "src") "./row" "./row"
              (SystemError "open" "/project/pages/./row.wxml"))
    as (_ & Hmodule & _).
  - reflexivity.
  - reflexivity.
  - reflexivity.
  - reflexivity.
  - exact Hmodule.
Defined.

(** C7 as stated fails on an [import] node whose path has no parent
    container: the target cannot be read, nothing is thrown and no import
    record is produced, but [jsx.remove()] throws, the [catch] swallows it,
    and the node is left in the tree. *)
Lemma parseModule_import_detached :
  @readFileSync ∅
    (@targetFile Sample.paths (@moduleDir Sample.paths "/project/pages")
       "./row")
  = Throw (SystemError "open" "/project/pages/./row.wxml")
  /\ @parseModule Sample.utils Sample.paths Sample.wxml ∅
       (Sample.detached
          (JSXElement
             (JSXOpeningElement (JSXIdentifier "import")
                [Sample.attr "src" (StringLiteral "./row")] true None)
             None [] true None))
       "/project/pages" import ["earlier"]
     = (Normal (Untouched, Some []),
        ["earlier"; notFoundDiagnostic "import" "./row"]).
Proof. split; reflexivity. Qed.

(** * Further properties *)

(** ** The identifier sanitizer *)

Lemma list_ascii_of_string_append (a b : string) :
  list_ascii_of_string (a +:+ b)
  = list_ascii_of_string a ++ list_ascii_of_string b.
Proof.
  induction a as [|c a IH]; [reflexivity|].
  change (String c a +:+ b) with (String c (a +:+ b)).
  cbn [list_ascii_of_string]. rewrite IH. reflexivity.
Qed.

Lemma list_ascii_of_mapChars (f : ascii -> ascii) (s : string) :
  list_ascii_of_string (mapChars f s) = map f (list_ascii_of_string s).
Proof. induction s as [|c s IH]; [reflexivity|]. cbn. f_equal. exact IH. Qed.

Lemma list_ascii_of_string_inj (a b : string) :
  list_ascii_of_string a = list_ascii_of_string b -> a = b.
Proof.
  intros Heq. rewrite <- (string_of_list_ascii_of_string a),
                <- (string_of_list_ascii_of_string b), Heq. reflexivity.
Qed.

(** The string of the loop, as a string. *)
Lemma join_replaceNumeric (words : string) :
  JsString.join (replaceNumeric words) = mapChars replaced words.
Proof.
  apply list_ascii_of_string_inj.
  rewrite replaceNumeric_map, join_pushed, list_ascii_of_mapChars. reflexivity.
Qed.

Lemma mapChars_append (f : ascii -> ascii) (a b : string) :
  mapChars f (a +:+ b) = mapChars f a +:+ mapChars f b.
Proof.
  induction a as [|c a IH]; [reflexivity|].
  change (String c a +:+ b) with (String c (a +:+ b)).
  cbn [mapChars]. rewrite IH. reflexivity.
Qed.

Lemma replaced_idempotent (c : ascii) : replaced (replaced c) = replaced c.
Proof. destruct c as [[] [] [] [] [] [] [] []]; reflexivity. Qed.

Lemma is_w_replaced (c : ascii) : is_w (replaced c) = is_w c.
Proof. destruct c as [[] [] [] [] [] [] [] []]; reflexivity. Qed.

Lemma is_x_replaced (c : ascii) : is_x (replaced c) = is_x c.
Proof. destruct c as [[] [] [] [] [] [] [] []]; reflexivity. Qed.

Lemma test_wx_mapChars_replaced (s : string) :
  test_wx (mapChars replaced s) = test_wx s.
Proof.
  induction s as [|a s IH]; [reflexivity|].
  destruct s as [|b s]; [reflexivity|].
  change (mapChars replaced (String a (String b s)))
    with (String (replaced a) (String (replaced b) (mapChars replaced s))).
  rewrite !test_wx_unfold, is_w_replaced, is_x_replaced.
  f_equal. exact IH.
Qed.

(** X1: on a name that matches [/wx/i] only within its first three
    characters, [buildTemplateName] returns after one recursive call, and
    the [pascal] argument has no effect: the result is the Pascal form of
    ["taro-" + name.slice(2) + "-tmpl"] with its digits replaced, also for
    [pascal = false]. *)
Theorem buildTemplateName_wx_prefix `{Utils} (fuel : nat) (name : string)
    (pascal : bool) :
  test_wx name = true ->
  test_wx (JsString.slice 2 name) = false ->
  buildTemplateName (S (S fuel)) name pascal
  = Some (mapChars replaced
            (pascalName (("taro-" +:+ JsString.slice 2 name) +:+ "-tmpl"))).
Proof.
  intros Hwx Hrest.
  rewrite buildTemplateName_returns by exact Hrest.
  unfold caseTransformed. rewrite Hwx, join_replaceNumeric. reflexivity.
Qed.

Lemma buildTemplateName_wx_prefix_witness :
  @buildTemplateName Sample.utils 2 "wxs-list" false = Some "TaroSListTmpl".
Proof.
  apply (@buildTemplateName_wx_prefix Sample.utils 0 "wxs-list" false);
    reflexivity.
Defined.

(** X2: the index into [NumberWords] is never out of range and never
    reaches its last entry: for a numeric character the element pushed is
    the one-letter string of one of [z,b,c,d,e,f,g,h,i,j], the letter at the
    digit's value, never [undefined] and never [k]. *)
Theorem NumberWords_at_digit (c : ascii) :
  isNumeric c = true ->
  NumberWords_at c = Some (String (numberLetter c) EmptyString)
  /\ numberLetter c ∈ firstn 10 alphabet
  /\ numberLetter c ≠ "k"%char.
Proof.
  destruct c as [[] [] [] [] [] [] [] []]; intros Hnum;
    try discriminate Hnum.
  all: split; [reflexivity|split; [|discriminate]].
  all: cbn; set_solver.
Qed.

Lemma NumberWords_at_digit_witness :
  NumberWords_at "7" = Some "h" /\ numberLetter "7" = "h"%char.
Proof.
  destruct (NumberWords_at_digit "7" eq_refl) as (Hat & _ & _).
  split; [exact Hat|reflexivity].
Defined.

(** X3: without Pascal casing, a name that does not match [/wx/i] is
    returned with each digit replaced by its letter, followed by the
    suffix [-tmpl], which is kept as it is. *)
Theorem buildTemplateName_plain `{Utils} (fuel : nat) (name : string) :
  test_wx name = false ->
  buildTemplateName (S fuel) name false
  = Some (mapChars replaced name +:+ "-tmpl").
Proof.
  intros Hwx. cbn [buildTemplateName]. rewrite Hwx.
  rewrite join_replaceNumeric, mapChars_append. reflexivity.
Qed.

Lemma buildTemplateName_plain_witness :
  @buildTemplateName Sample.utils 1 "row-2x" false = Some "row-cx-tmpl".
Proof.
  apply (@buildTemplateName_plain Sample.utils 0 "row-2x"). reflexivity.
Defined.

(** X4: the sanitizer is not injective.  Without Pascal casing, a name
    that does not match [/wx/i] and the same name with its digits already
    replaced by their letters are given the same identifier. *)
Theorem buildTemplateName_digit_letter_collision `{Utils} (fuel : nat)
    (name : string) :
  test_wx name = false ->
  buildTemplateName (S fuel) (mapChars replaced name) false
  = buildTemplateName (S fuel) name false.
Proof.
  intros Hwx. cbn [buildTemplateName].
  rewrite test_wx_mapChars_replaced, Hwx, !join_replaceNumeric,
    !mapChars_append.
  do 2 f_equal. apply list_ascii_of_string_inj.
  rewrite !list_ascii_of_mapChars, map_map.
  apply map_ext. intros c. apply replaced_idempotent.
Qed.

Lemma buildTemplateName_digit_letter_collision_witness :
  "tplb" ≠ "tpl1"
  /\ @buildTemplateName Sample.utils 1 "tplb" false
     = @buildTemplateName Sample.utils 1 "tpl1" false.
Proof.
  split; [discriminate|].
  apply (@buildTemplateName_digit_letter_collision Sample.utils 0 "tpl1").
  reflexivity.
Defined.

(** ** The path resolver *)

Lemma hasBackslash_replace (s : string) :
  hasBackslash (JsString.replace_backslashes s) = false.
Proof.
  induction s as [|c s IH]; [reflexivity|].
  cbn [JsString.replace_backslashes hasBackslash]. rewrite IH, orb_false_r.
  destruct (Ascii.eqb c "\"%char) eqn:Hc; [reflexivity|exact Hc].
Qed.

(** X5: for a [srcPath] that starts with a slash, a path [getSrcRelPath]
    returns always begins with a dot and has no backslash: it is the
    relative path from [dirPath] to the target under the project root, its
    backslashes turned into slashes, with [./] put in front unless it begins
    with a dot already.  The target is taken without [.wxml], also when only
    the file with [.wxml] exists. *)
Theorem getSrcRelPath_rooted_result `{Utils} `{Path.Lib}
    (fs : gmap string FsEntry) (dirPath srcPath r : string) :
  JsString.startsWith srcPath "/" = true ->
  getSrcRelPath fs dirPath srcPath = Normal r ->
  let relativePath :=
    JsString.replace_backslashes
      (Path.relative dirPath
         (Path.join rootPath (JsString.slice 1 srcPath))) in
  r = (if JsString.startsWith relativePath "." then relativePath
       else "./" +:+ relativePath)
  /\ JsString.startsWith r "." = true
  /\ hasBackslash r = false.
Proof.
  intros Hroot Hret relativePath. unfold getSrcRelPath in Hret.
  rewrite Hroot in Hret. fold relativePath in Hret.
  destruct (negb _ && negb _); [discriminate|].
  unfold JsString.indexOf_is_0 in Hret. unfold JsString.startsWith.
  assert (hasBackslash relativePath = false) as Hback
    by apply hasBackslash_replace.
  destruct (String.prefix "." relativePath) eqn:Hdot; cbn [negb] in Hret;
    injection Hret as <-.
  - auto.
  - split_and!; [reflexivity|reflexivity|exact Hback].
Qed.

Lemma getSrcRelPath_rooted_result_witness :
  @getSrcRelPath Sample.utils Posix.paths Posix.files "/project" "/tpl/row"
  = Normal "./tpl/row"
  /\ JsString.startsWith "./tpl/row" "." = true
  /\ hasBackslash "./tpl/row" = false.
Proof.
  split; [reflexivity|].
  apply (@getSrcRelPath_rooted_result Sample.utils Posix.paths Posix.files
           "/project" "/tpl/row" "./tpl/row"); reflexivity.
Defined.

(** ** The reference set of a template definition *)

Lemma pruneLoopIds_loop_part (loopIds refIds : list string) :
  NoDup refIds ->
  (length (filter (fun id => id ∈ loopIds) (pruneLoopIds loopIds refIds)) <= 1)%nat.
Proof.
  intros Hnd. apply NoDup_length_le_1.
  - apply NoDup_filter, NoDup_pruneLoopIds, Hnd.
  - assert (forall x,
              x ∈ filter (fun id => id ∈ loopIds) (pruneLoopIds loopIds refIds) ->
              Some x = head refIds) as Hhead.
    { intros x Hx. apply list_elem_of_filter in Hx as [Hloop Hx].
      rewrite pruneLoopIds_filter in Hx.
      apply list_elem_of_filter in Hx as [Hq _].
      destruct (decide (Some x = head refIds)) as [He|Hne]; [exact He|].
      exfalso. apply Hq. auto. }
    intros x y Hx Hy. apply Hhead in Hx, Hy. congruence.
Qed.

Lemma length_filter_split {A : Type} (P : A -> Prop)
    `{!forall x, Decision (P x)} (l : list A) :
  length l = (length (filter P l) + length (filter (fun x => ~ P x) l))%nat.
Proof.
  induction l as [|x l IH]; [reflexivity|].
  rewrite !filter_cons. destruct (decide (P x)) as [Hx|Hx].
  - rewrite decide_False by tauto. cbn. lia.
  - rewrite decide_True by tauto. cbn. lia.
Qed.

Lemma length_filter_sublist {A : Type} (P : A -> Prop)
    `{!forall x, Decision (P x)} (k l : list A) :
  sublist k l -> (length (filter P k) <= length (filter P l))%nat.
Proof.
  intros Hkl. apply sublist_length.
  induction Hkl as [|x k l Hkl IH|x k l Hkl IH].
  - constructor.
  - rewrite !filter_cons. destruct (decide (P x)); [constructor|]; exact IH.
  - rewrite filter_cons. destruct (decide (P x)); [constructor|]; exact IH.
Qed.

Lemma NoDup_moveOne (wxses : list WXS) (refId : string) :
  forall st, NoDup (fst st) -> NoDup (fst (moveOne wxses refId st)).
Proof.
  unfold moveOne. induction wxses as [|w wxses IH]; intros st Hst; [exact Hst|].
  cbn [fold_left]. apply IH.
  destruct (JsString.includes (module w) refId); [|exact Hst].
  cbn [fst]. apply NoDup_Set_add, Hst.
Qed.

Lemma NoDup_moveWxses_fst (wxses : list WXS) (entries : list string) :
  forall st,
    NoDup (fst st) ->
    NoDup (fst (Set_forEach entries snd (moveOne wxses) st)).
Proof.
  induction entries as [|x entries IH]; intros st Hst; [exact Hst|].
  cbn [Set_forEach]. apply IH.
  destruct (Set_has (snd st) x); [apply NoDup_moveOne, Hst|exact Hst].
Qed.

Lemma resolveRefIds_snd_sublist (wxses : list WXS)
    (loopIds refIds : list string) :
  sublist (snd (resolveRefIds wxses loopIds refIds)) refIds.
Proof.
  unfold resolveRefIds. cbn [snd].
  rewrite pruneLoopIds_filter, moveWxses_snd.
  etransitivity; apply sublist_filter; reflexivity.
Qed.

(** The kept references are the collected ones in the order of their
    discovery, some left out, none twice; the objects moved are objects of
    [wxses], none twice. *)
Lemma resolveRefIds_order (wxses : list WXS)
    (loopAdds refAdds : list string) :
  let resolved :=
    resolveRefIds wxses (Set_of loopAdds) (Set_of refAdds) in
  sublist (snd resolved) (Set_of refAdds)
  /\ NoDup (snd resolved)
  /\ (forall w, w ∈ fst resolved -> w ∈ wxses)
  /\ NoDup (fst resolved).
Proof.
  intros resolved. split_and!.
  - apply resolveRefIds_snd_sublist.
  - apply NoDup_pruneLoopIds, NoDup_moveWxses, NoDup_Set_of.
  - intros w Hw. unfold resolved, resolveRefIds in Hw. cbn [fst] in Hw.
    rewrite moveWxses_unfold in Hw.
    apply moveWxses_fst_forEach in Hw as [Hw|[Hw _]]; [inversion Hw|exact Hw].
  - unfold resolved, resolveRefIds. cbn [fst]. rewrite moveWxses_unfold.
    apply NoDup_moveWxses_fst. constructor.
Qed.

(** The kept references are at most one more than the collected
    references that are no loop identifiers. *)
Lemma resolveRefIds_count (wxses : list WXS)
    (loopAdds refAdds : list string) :
  (length (snd (resolveRefIds wxses (Set_of loopAdds) (Set_of refAdds)))
   <= 1 + length (filter (fun id => id ∉ Set_of loopAdds) (Set_of refAdds)))%nat.
Proof.
  set (loopIds := Set_of loopAdds). set (refIds := Set_of refAdds).
  set (kept := snd (resolveRefIds wxses loopIds refIds)).
  rewrite (length_filter_split (fun id => id ∈ loopIds) kept).
  assert ((length (filter (fun id => id ∈ loopIds) kept) <= 1)%nat) as Hloop.
  { apply pruneLoopIds_loop_part, NoDup_moveWxses, NoDup_Set_of. }
  assert ((length (filter (fun id => id ∉ loopIds) kept)
           <= length (filter (fun id => id ∉ loopIds) refIds))%nat) as Hrest.
  { apply length_filter_sublist, resolveRefIds_snd_sublist. }
  lia.
Qed.



(** ** The template resolver *)

(** X6: whenever [parseTemplate] returns the value of a template
    definition, the visitor having added [loopAdds] to [loopIds] and
    [refAdds] to [refIds]: the references the render method is built with
    are the collected ones in the order of their discovery, some left out,
    none twice; and the objects of [usedWxses] are objects of [wxses], no
    object twice. *)
Theorem parseTemplate_definition_order `{Utils} `{Wxml} (fuel : nat)
    (path : NodePath) (dirPath : string) (wxses : list WXS) (m : Mutation)
    (r : TemplateResult) loopAdds refAdds childrenAfter :
  parseTemplate fuel path dirPath wxses = ret (m, Some r) ->
  traverseWxmlVisitor (node path) dirPath
  = Normal (loopAdds, refAdds, childrenAfter) ->
  exists kept,
    renderKeys r = [kept]
    /\ sublist kept (Set_of refAdds)
    /\ NoDup kept
    /\ (forall w, w ∈ usedWxses r -> w ∈ wxses)
    /\ NoDup (usedWxses r).
Proof.
  intros Hret Hvisit.
  destruct (parseTemplate_value fuel path dirPath wxses m r loopAdds refAdds
              childrenAfter Hret Hvisit) as (_ & Hkeys & Hused).
  destruct (resolveRefIds_order wxses loopAdds refAdds)
    as (Hsub & Hnodup & Hin & Hnodup').
  exists (snd (resolveRefIds wxses (Set_of loopAdds) (Set_of refAdds))).
  rewrite Hused. split_and!; assumption.
Qed.

Lemma parseTemplate_definition_order_witness :
  exists kept,
    renderKeys
      {| name := "RowTmpl";
         ast := @templateClass Sample.utils "RowTmpl" [] ["item"];
         tmplName := "row";
         usedWxses := [Cases.utils] |}
    = [kept]
    /\ sublist kept (Set_of ["item"; "utils"; "index"])
    /\ NoDup kept
    /\ (forall w, w ∈ [Cases.utils] -> w ∈ [Cases.utils])
    /\ NoDup [Cases.utils].
Proof.
  apply (@parseTemplate_definition_order Sample.utils Sample.wxml 1
           (Sample.attached
              (Sample.template [Sample.attr "name" (StringLiteral "row")]))
           "/project/pages" [Cases.utils] Removed
           {| name := "RowTmpl";
              ast := @templateClass Sample.utils "RowTmpl" [] ["item"];
              tmplName := "row";
              usedWxses := [Cases.utils] |}
           ["item"; "index"] ["item"; "utils"; "index"] []).
  - reflexivity.
  - reflexivity.
Defined.

(** X7: whenever [parseTemplate] returns the value of a template
    definition, the visitor having added [loopAdds] to [loopIds] and
    [refAdds] to [refIds]: the references the render method is built with
    are at most one more than the collected references that are no loop
    identifiers. *)
Theorem parseTemplate_definition_count `{Utils} `{Wxml} (fuel : nat)
    (path : NodePath) (dirPath : string) (wxses : list WXS) (m : Mutation)
    (r : TemplateResult) loopAdds refAdds childrenAfter :
  parseTemplate fuel path dirPath wxses = ret (m, Some r) ->
  traverseWxmlVisitor (node path) dirPath
  = Normal (loopAdds, refAdds, childrenAfter) ->
  exists kept,
    renderKeys r = [kept]
    /\ (length kept
        <= 1 + length (filter (fun id => id ∉ Set_of loopAdds)
                         (Set_of refAdds)))%nat.
Proof.
  intros Hret Hvisit.
  destruct (parseTemplate_value fuel path dirPath wxses m r loopAdds refAdds
              childrenAfter Hret Hvisit) as (_ & Hkeys & _).
  exists (snd (resolveRefIds wxses (Set_of loopAdds) (Set_of refAdds))).
  split; [exact Hkeys|]. apply resolveRefIds_count.
Qed.

Lemma parseTemplate_definition_count_witness :
  exists kept,
    renderKeys
      {| name := "RowTmpl";
         ast := @templateClass Sample.utils "RowTmpl" [] ["item"];
         tmplName := "row";
         usedWxses := [Cases.utils] |}
    = [kept]
    /\ (length kept
        <= 1 + length (filter (fun id => id ∉ Set_of ["item"; "index"])
                         (Set_of ["item"; "utils"; "index"])))%nat.
Proof.
  apply (@parseTemplate_definition_count Sample.utils Sample.wxml 1
           (Sample.attached
              (Sample.template [Sample.attr "name" (StringLiteral "row")]))
           "/project/pages" [Cases.utils] Removed
           {| name := "RowTmpl";
              ast := @templateClass Sample.utils "RowTmpl" [] ["item"];
              tmplName := "row";
              usedWxses := [Cases.utils] |}
           ["item"; "index"] ["item"; "utils"; "index"] []).
  - reflexivity.
  - reflexivity.
Defined.

(** X10: on a path with a parent container, a [name] attribute whose
    value is missing or is not a string literal makes [parseTemplate] throw
    a plain [Error], with no kind, code or position, whatever the other
    attributes are and before any name is sanitized. *)
Theorem parseTemplate_name_not_literal `{Utils} `{Wxml} (fuel : nat) (path : NodePath)
    (dirPath : string) (wxses : list WXS) tag attrs sc pos closing children
    selfClosing position attrName value :
  container path = true ->
  node path
  = JSXElement (JSXOpeningElement tag attrs sc pos) closing children
      selfClosing position ->
  findAttribute "name" attrs = Some (JSXAttribute attrName value) ->
  (forall literal, value ≠ Some (StringLiteral literal)) ->
  parseTemplate fuel path dirPath wxses
  = throw (Error "template 的 `name` 属性只能是字符串").
Proof.
  intros Hc Hn Hname Hvalue. unfold parseTemplate. rewrite Hc, Hn, Hname.
  destruct value as [[]|]; try reflexivity.
  exfalso. eapply Hvalue. reflexivity.
Qed.

Lemma parseTemplate_name_not_literal_witness :
  @parseTemplate Sample.utils Sample.wxml 0
    (Sample.attached
       (Sample.template
          [JSXAttribute (JSXIdentifier "name") None;
           Sample.attr "is" (StringLiteral "foo")]))
    "/project/pages" []
  = throw (Error "template 的 `name` 属性只能是字符串").
Proof.
  apply (@parseTemplate_name_not_literal Sample.utils Sample.wxml 0
           (Sample.attached
              (Sample.template
                 [JSXAttribute (JSXIdentifier "name") None;
                  Sample.attr "is" (StringLiteral "foo")]))
           "/project/pages" [] (JSXIdentifier "template")
           [JSXAttribute (JSXIdentifier "name") None;
            Sample.attr "is" (StringLiteral "foo")]
           false None (Some (JSXIdentifier "template")) [] false
           (Some {| line := 3; column := 4 |}) (JSXIdentifier "name") None).
  - reflexivity.
  - reflexivity.
  - reflexivity.
  - intros literal Heq. discriminate Heq.
Defined.

(** X11: on a path with a parent container, a node with neither a [name]
    nor an [is] attribute makes [parseTemplate] throw
    [TemplateMissingIsNameError] with the code and the position of the
    node; an [is] attribute without a value makes it throw
    [TemplateIsAttributeEmptyError] with them. *)
Theorem parseTemplate_is_missing_or_empty `{Utils} `{Wxml} (fuel : nat) (path : NodePath)
    (dirPath : string) (wxses : list WXS) tag attrs sc pos closing children
    selfClosing position :
  container path = true ->
  node path
  = JSXElement (JSXOpeningElement tag attrs sc pos) closing children
      selfClosing position ->
  findAttribute "name" attrs = None ->
  (findAttribute "is" attrs = None ->
   parseTemplate fuel path dirPath wxses
   = throw (IReportError
              "template 标签必须指名 `is` 或 `name` 任意一个标签"
              "TemplateMissingIsNameError" "WXML_FILE"
              (codeOf (node path)) (positionOf position)))
  /\ (forall isName,
        findAttribute "is" attrs = Some (JSXAttribute isName None) ->
        parseTemplate fuel path dirPath wxses
        = throw (IReportError "template 的 `is` 属性不能为空"
                   "TemplateIsAttributeEmptyError" "WXML_FILE"
                   (codeOf (node path)) (positionOf position))).
Proof.
  intros Hc Hn Hname. unfold parseTemplate. rewrite Hc, Hn, Hname. split.
  - intros ->. reflexivity.
  - intros isName ->. reflexivity.
Qed.

Lemma parseTemplate_is_missing_or_empty_witness :
  @parseTemplate Sample.utils Sample.wxml 0
    (Sample.attached (Sample.template [Sample.data])) "/project/pages" []
  = throw (IReportError
             "template 标签必须指名 `is` 或 `name` 任意一个标签"
             "TemplateMissingIsNameError" "WXML_FILE" ""
             {| col := 4; row := 3 |}).
Proof.
  destruct (@parseTemplate_is_missing_or_empty Sample.utils Sample.wxml 0
              (Sample.attached (Sample.template [Sample.data]))
              "/project/pages" [] (JSXIdentifier "template") [Sample.data]
              false None (Some (JSXIdentifier "template")) [] false
              (Some {| line := 3; column := 4 |}) eq_refl eq_refl eq_refl)
    as [Hmissing _].
  apply Hmissing. reflexivity.
Defined.

(** X12: on a node without a [name] attribute [parseTemplate] never
    removes the node and never returns a value.  It returns [undefined]
    with the node untouched or replaced; or it throws a report of kind
    [TemplateIsAttributeEmptyError],
    [TemplateIsAttributeTypeMismatchError] or
    [TemplateMissingIsNameError] that carries the code and the position of
    the node; or it does not return: then [is] is a string literal,
    directly or inside an expression container, that has [wx], in either
    case, after its first two characters, on which the recursion of
    [buildTemplateName] does not end, whatever the fuel (at run time the
    stack is exhausted and a [RangeError] is thrown). *)
Theorem parseTemplate_invocation_outcomes `{Utils} `{Wxml} (fuel : nat) (path : NodePath)
    (dirPath : string) (wxses : list WXS) tag attrs sc pos closing children
    selfClosing position :
  node path
  = JSXElement (JSXOpeningElement tag attrs sc pos) closing children
      selfClosing position ->
  findAttribute "name" attrs = None ->
  match parseTemplate (S (S fuel)) path dirPath wxses with
  | None =>
      exists isName value literal,
        findAttribute "is" attrs = Some (JSXAttribute isName (Some value))
        /\ (value = StringLiteral literal
            \/ value = JSXExpressionContainer (StringLiteral literal))
        /\ test_wx (JsString.slice 2 literal) = true
        /\ forall fuel', buildTemplateName fuel' literal true = None
  | Some (Normal (m, r)) => r = None /\ m ≠ Removed
  | Some (Throw e) =>
      exists message kind,
        e = IReportError message kind "WXML_FILE" (codeOf (node path))
              (positionOf position)
        /\ kind ∈ ["TemplateIsAttributeEmptyError";
                   "TemplateIsAttributeTypeMismatchError";
                   "TemplateMissingIsNameError"]
  end.
Proof.
  intros Hn Hname. unfold parseTemplate, replaceWith. rewrite Hn, Hname.
  destruct (container path); [|split; [reflexivity|discriminate]].
  destruct (findAttribute "is" attrs) as [[isName [value|]|]|].
  - destruct value as [v| | | | | |e| | |]; cbn [lift_fuel ret throw];
      try (split; [reflexivity|discriminate]).
    + destruct (buildTemplateName (S (S fuel)) v true) eqn:Hbuild;
        cbn [lift_fuel ret]; [split; [reflexivity|discriminate]|].
      apply buildTemplateName_None in Hbuild.
      exists isName, (StringLiteral v), v.
      split_and!; [reflexivity|left; reflexivity|exact Hbuild|].
      intros fuel'. apply buildTemplateName_loops, Hbuild.
    + destruct e as [v| | | |test consequent alternate| | | | |];
        cbn [lift_fuel ret throw];
        try (split; [reflexivity|discriminate]).
      * destruct (buildTemplateName (S (S fuel)) v true) eqn:Hbuild;
          cbn [lift_fuel ret]; [split; [reflexivity|discriminate]|].
        apply buildTemplateName_None in Hbuild.
        exists isName, (JSXExpressionContainer (StringLiteral v)), v.
        split_and!; [reflexivity|right; reflexivity|exact Hbuild|].
        intros fuel'. apply buildTemplateName_loops, Hbuild.
      * destruct (negb (isStringLiteral consequent)
                  || negb (isStringLiteral alternate)); cbn.
        -- eexists _, _. split; [reflexivity|]. right; left.
        -- split; [reflexivity|discriminate].
  - eexists _, _. split; [reflexivity|]. left.
  - eexists _, _. split; [reflexivity|]. right; right; left.
  - eexists _, _. split; [reflexivity|]. right; right; left.
Qed.

Lemma parseTemplate_invocation_outcomes_witness :
  match
    @parseTemplate Sample.utils Sample.wxml 2
      (Sample.attached
         (Sample.template [Sample.attr "is" Sample.bothLiterals]))
      "/project/pages" []
  with
  | Some (Normal (m, r)) => r = None /\ m ≠ Removed
  | _ => False
  end.
Proof.
  pose proof (@parseTemplate_invocation_outcomes Sample.utils Sample.wxml 0
                (Sample.attached
                   (Sample.template [Sample.attr "is" Sample.bothLiterals]))
                "/project/pages" [] (JSXIdentifier "template")
                [Sample.attr "is" Sample.bothLiterals] false None
                (Some (JSXIdentifier "template")) [] false
                (Some {| line := 3; column := 4 |}) eq_refl eq_refl) as Hout.
  exact Hout.
Defined.

(** ** The template pre-scanner *)

Section ScanFacts.
Context `{Utils}.
Variables (fuel : nat) (root : Node).





End ScanFacts.



Lemma grows_refl (st : list string * list string) : grows st st.
Proof. split; reflexivity. Qed.

Lemma grows_trans (a b c : list string * list string) :
  grows a b -> grows b c -> grows a c.
Proof. intros [H1 H2] [H3 H4]. split; etransitivity; eassumption. Qed.

Lemma Set_add_subseteq {A : Type} `{EqDecision A} (x : A) (s : list A) :
  s ⊆ Set_add x s.
Proof. intros y Hy. apply elem_of_Set_add. right. exact Hy. Qed.

Lemma onJSXAttribute_grows (a : Attribute) (st : list string * list string) :
  grows st (onJSXAttribute a st).
Proof.
  unfold onJSXAttribute.
  repeat match goal with
         | |- context [match ?x with _ => _ end] => destruct x
         end; try apply grows_refl.
  split; [apply Set_add_subseteq|reflexivity].
Qed.

Section ScanGrowth.
Context `{Utils}.
Variables (fuel : nat) (root : Node).

Lemma onJSXOpeningElement_grows (p : OpeningElement) st st' :
  onJSXOpeningElement fuel root p st = Some (Normal st') -> grows st st'.
Proof.
  destruct p as [tag attrs sc position]. cbn.
  destruct (findAttribute "is" attrs) as [[isName [value|]|]|].
  2: discriminate.
  2-3: intros Hst; injection Hst as <-; apply grows_refl.
  destruct value.
  2-10: intros Hst; injection Hst as <-; apply grows_refl.
  destruct (buildTemplateName fuel value true); cbn; [|discriminate].
  intros Hst. injection Hst as <-.
  split; [reflexivity|apply Set_add_subseteq].
Qed.

(** The traversal only adds to the two sets. *)
Lemma traverse_grows (n : Node) :
  forall st st', traverse fuel root n st = Some (Normal st') -> grows st st'
with traverseOpening_grows (p : OpeningElement) :
  forall st st',
    traverseOpening fuel root p st = Some (Normal st') -> grows st st'
with traverseAttribute_grows (a : Attribute) :
  forall st st',
    traverseAttribute fuel root a st = Some (Normal st') -> grows st st'.
Proof.
  - destruct n as [v|v| |o p c|c a b| |x|v
                  |opening closing children sc position|t operands];
      intros st st' Hst; cbn in Hst;
      try (injection Hst as <-; apply grows_refl).
    + destruct (traverse fuel root o st) as [[st1|e1]|] eqn:Ho;
        try discriminate.
      exact (grows_trans _ _ _ (traverse_grows o st st1 Ho)
               (traverse_grows p st1 st' Hst)).
    + destruct (traverse fuel root c st) as [[st1|e1]|] eqn:Hc;
        try discriminate.
      destruct (traverse fuel root a st1) as [[st2|e2]|] eqn:Ha;
        try discriminate.
      exact (grows_trans _ _ _ (traverse_grows c st st1 Hc)
               (grows_trans _ _ _ (traverse_grows a st1 st2 Ha)
                  (traverse_grows b st2 st' Hst))).
    + exact (traverse_grows x st st' Hst).
    + destruct (traverseOpening fuel root opening st) as [[st1|e1]|] eqn:Ho;
        try discriminate.
      apply (grows_trans _ st1); [exact (traverseOpening_grows opening st st1 Ho)|].
      clear Ho. revert st1 Hst.
      induction children as [|x rest IH]; intros st1 Hst.
      * injection Hst as <-. apply grows_refl.
      * destruct (traverse fuel root x st1) as [[st2|e2]|] eqn:Hx;
          try discriminate.
        exact (grows_trans _ _ _ (traverse_grows x st1 st2 Hx) (IH st2 Hst)).
    + revert st Hst. induction operands as [|x rest IH]; intros st Hst.
      * injection Hst as <-. apply grows_refl.
      * destruct (traverse fuel root x st) as [[st2|e2]|] eqn:Hx;
          try discriminate.
        exact (grows_trans _ _ _ (traverse_grows x st st2 Hx) (IH st2 Hst)).
  - destruct p as [tag attrs sc position]. intros st st' Hst.
    cbn [traverseOpening] in Hst.
    destruct (onJSXOpeningElement fuel root
                (JSXOpeningElement tag attrs sc position) st)
      as [[st1|e1]|] eqn:Ho; try discriminate.
    apply (grows_trans _ st1); [exact (onJSXOpeningElement_grows _ _ _ Ho)|].
    clear Ho. revert st1 Hst.
    induction attrs as [|x rest IH]; intros st1 Hst.
    + injection Hst as <-. apply grows_refl.
    + destruct (traverseAttribute fuel root x st1) as [[st2|e2]|] eqn:Hx;
        try discriminate.
      exact (grows_trans _ _ _ (traverseAttribute_grows x st1 st2 Hx)
               (IH st2 Hst)).
  - destruct a as [an [v|]|arg]; intros st st' Hst;
      cbn [traverseAttribute] in Hst.
    + exact (grows_trans _ _ _ (onJSXAttribute_grows _ st)
               (traverse_grows v _ st' Hst)).
    + injection Hst as <-. apply (onJSXAttribute_grows (JSXAttribute an None)).
    + exact (traverse_grows arg st st' Hst).
Qed.

End ScanGrowth.

Lemma traverseAttributes_grows `{Utils} (fuel : nat) (root : Node)
    (attrs : list Attribute) :
  forall st st',
    (fix each (l : list Attribute) (st : list string * list string)
       : M (list string * list string) :=
       match l with
       | [] => ret st
       | a :: rest =>
           let! st' := traverseAttribute fuel root a st in each rest st'
       end) attrs st = Some (Normal st') ->
    grows st st'.
Proof.
  induction attrs as [|x rest IH]; intros st st' Hst.
  - injection Hst as <-. apply grows_refl.
  - destruct (traverseAttribute fuel root x st) as [[st2|e2]|] eqn:Hx;
      try discriminate.
    exact (grows_trans _ _ _ (traverseAttribute_grows fuel root x st st2 Hx)
             (IH st2 st' Hst)).
Qed.

(** X14: when [preParseTemplate] returns a result for a template whose
    own [is] attribute is a string literal, [buildTemplateName] returns on
    that literal and its result is among the [applies] of the result: the
    scan counts the opening element of the template itself. *)
Theorem preParseTemplate_own_is `{Utils} (fuel : nat) (path : NodePath)
    tag attrs sc pos closing children selfClosing position isName literal
    (pre : PreParsed) :
  node path
  = JSXElement (JSXOpeningElement tag attrs sc pos) closing children
      selfClosing position ->
  findAttribute "is" attrs
  = Some (JSXAttribute isName (Some (StringLiteral literal))) ->
  preParseTemplate fuel path = ret (Some pre) ->
  exists apply,
    buildTemplateName fuel literal true = Some apply
    /\ apply ∈ pre_applies pre.
Proof.
  intros Hn His. unfold preParseTemplate.
  destruct (container path); cbn [negb]; [|discriminate].
  rewrite Hn.
  destruct (findAttribute "name" attrs) as [[attrName [[v| | | | | | | | |]|]|]|];
    try discriminate.
  destruct (buildTemplateName fuel v true) as [templateName|];
    cbn [lift_fuel ret]; [|discriminate].
  destruct (traverse fuel _ _ ([], [])) as [[st|e1]|] eqn:Hscan;
    try discriminate.
  intros Hpre. injection Hpre as <-. cbn [pre_applies].
  cbn [traverse] in Hscan.
  destruct (traverseOpening fuel _ _ ([], [])) as [[st1|e1]|] eqn:Ho;
    try discriminate.
  assert (grows st1 st) as [_ Hst1].
  { apply (traverse_grows fuel
             (JSXElement (JSXOpeningElement tag attrs sc pos) closing children
                selfClosing position)
             (OtherNode EmptyString children)).
    exact Hscan. }
  cbn [traverseOpening] in Ho.
  destruct (onJSXOpeningElement fuel _ _ ([], [])) as [[st0|e0]|] eqn:Hon;
    try discriminate.
  apply traverseAttributes_grows in Ho as [_ Hst0].
  unfold onJSXOpeningElement in Hon. rewrite His in Hon.
  destruct (buildTemplateName fuel literal true) as [apply|];
    cbn [lift_fuel ret] in Hon; [|discriminate].
  injection Hon as <-. exists apply. split; [reflexivity|].
  apply Hst1, Hst0. cbn [snd]. apply elem_of_Set_add. left. reflexivity.
Qed.

Lemma preParseTemplate_own_is_witness :
  exists apply,
    @buildTemplateName Sample.utils 1 "cell" true = Some apply
    /\ apply ∈ ["CellTmpl"].
Proof.
  apply (@preParseTemplate_own_is Sample.utils 1
           (Sample.attached
              (Sample.template
                 [Sample.attr "name" (StringLiteral "row");
                  Sample.attr "is" (StringLiteral "cell")]))
           (JSXIdentifier "template")
           [Sample.attr "name" (StringLiteral "row");
            Sample.attr "is" (StringLiteral "cell")]
           false None (Some (JSXIdentifier "template")) [] false
           (Some {| line := 3; column := 4 |}) (JSXIdentifier "is") "cell"
           {| pre_name := "RowTmpl"; pre_funcs := [];
              pre_applies := ["CellTmpl"] |}); reflexivity.
Defined.

(** X15: the pre-scan and the resolver name a definition alike: when
    [preParseTemplate] returns a result for a path and [parseTemplate]
    returns a value for it, the node was removed and the [name] of the two
    is the same. *)
Theorem preParseTemplate_name_agrees `{Utils} `{Wxml} (fuel : nat)
    (path : NodePath) (dirPath : string) (wxses : list WXS)
    (pre : PreParsed) (m : Mutation) (r : TemplateResult) :
  preParseTemplate fuel path = ret (Some pre) ->
  parseTemplate fuel path dirPath wxses = ret (m, Some r) ->
  pre_name pre = name r /\ m = Removed.
Proof.
  unfold preParseTemplate, parseTemplate, remove.
  destruct (container path); cbn [negb]; [|discriminate].
  destruct (node path) as [| | | | | | |
                           |[tag attrs sc pos] closing children sc' position|];
    try discriminate.
  destruct (findAttribute "name" attrs) as [[attrName [[v| | | | | | | | |]|]|]|];
    try discriminate.
  destruct (buildTemplateName fuel v true) as [templateName|];
    cbn [lift_fuel ret]; [|discriminate].
  destruct (traverse fuel _ _ ([], [])) as [[st|e1]|]; try discriminate.
  destruct (traverseWxmlVisitor _ dirPath) as [visited|e2]; [|discriminate].
  intros Hpre Hparse.
  injection Hpre as <-. injection Hparse as <- <-. split; reflexivity.
Qed.

Lemma preParseTemplate_name_agrees_witness :
  @preParseTemplate Sample.utils 1
    (Sample.attached
       (Sample.template [Sample.attr "name" (StringLiteral "row")]))
  = ret (Some {| pre_name := "RowTmpl"; pre_funcs := []; pre_applies := [] |})
  /\ exists r,
       @parseTemplate Sample.utils Sample.wxml 1
         (Sample.attached
            (Sample.template [Sample.attr "name" (StringLiteral "row")]))
         "/project/pages" []
       = ret (Removed, Some r)
       /\ "RowTmpl" = name r.
Proof.
  split; [reflexivity|].
  eexists. split; [reflexivity|].
  apply (@preParseTemplate_name_agrees Sample.utils Sample.wxml 1
           (Sample.attached
              (Sample.template [Sample.attr "name" (StringLiteral "row")]))
           "/project/pages" []
           {| pre_name := "RowTmpl"; pre_funcs := []; pre_applies := [] |}
           Removed); reflexivity.
Defined.

(** X16: the pre-scan is stricter than the resolver.  For a definition
    on a path with a parent container, whose [name] is a string literal on
    which [buildTemplateName] returns and whose own [is] attribute has no
    value, [preParseTemplate] throws [TemplateIsAttributeEmptyError], with
    the code of the template and the position of its opening element, while
    [parseTemplate], which looks at [name] first, removes the node and
    returns the definition when the traversal of the WXML visitor
    completes. *)
Theorem preParseTemplate_stricter `{Utils} `{Wxml} (fuel : nat)
    (path : NodePath) (dirPath : string) (wxses : list WXS) tag attrs sc pos
    closing children selfClosing position attrName templateName className
    isName visited :
  container path = true ->
  node path
  = JSXElement (JSXOpeningElement tag attrs sc pos) closing children
      selfClosing position ->
  findAttribute "name" attrs
  = Some (JSXAttribute attrName (Some (StringLiteral templateName))) ->
  buildTemplateName fuel templateName true = Some className ->
  findAttribute "is" attrs = Some (JSXAttribute isName None) ->
  traverseWxmlVisitor (node path) dirPath = Normal visited ->
  preParseTemplate fuel path
  = throw (IReportError "template 的 `is` 属性不能为空"
             "TemplateIsAttributeEmptyError" "WXML_FILE"
             (codeOf (node path)) (positionOf pos))
  /\ exists r, parseTemplate fuel path dirPath wxses = ret (Removed, Some r).
Proof.
  intros Hc Hn Hname Hbuild His Hvisit. split.
  - unfold preParseTemplate. rewrite Hc, Hn, Hname, Hbuild.
    cbn [negb lift_fuel ret traverse traverseOpening].
    unfold onJSXOpeningElement. rewrite His. reflexivity.
  - unfold parseTemplate, remove. rewrite Hc, Hn, Hname, Hbuild.
    cbn [lift_fuel ret]. rewrite <- Hn, Hvisit. eexists. reflexivity.
Qed.

Lemma preParseTemplate_stricter_witness :
  @preParseTemplate Sample.utils 1
    (Sample.attached
       (Sample.template
          [Sample.attr "name" (StringLiteral "row");
           JSXAttribute (JSXIdentifier "is") None]))
  = throw (IReportError "template 的 `is` 属性不能为空"
             "TemplateIsAttributeEmptyError" "WXML_FILE" ""
             {| col := 0; row := 0 |})
  /\ exists r,
       @parseTemplate Sample.utils Sample.wxml 1
         (Sample.attached
            (Sample.template
               [Sample.attr "name" (StringLiteral "row");
                JSXAttribute (JSXIdentifier "is") None]))
         "/project/pages" []
       = ret (Removed, Some r).
Proof.
  apply (@preParseTemplate_stricter Sample.utils Sample.wxml 1
           (Sample.attached
              (Sample.template
                 [Sample.attr "name" (StringLiteral "row");
                  JSXAttribute (JSXIdentifier "is") None]))
           "/project/pages" [] (JSXIdentifier "template")
           [Sample.attr "name" (StringLiteral "row");
            JSXAttribute (JSXIdentifier "is") None]
           false None (Some (JSXIdentifier "template")) [] false
           (Some {| line := 3; column := 4 |}) (JSXIdentifier "name") "row"
           "RowTmpl" (JSXIdentifier "is")
           (["item"; "index"], ["item"; "utils"; "index"], []));
    reflexivity.
Defined.

(** ** The module importer and includer *)

(** X17: a tag without a [src] attribute, or whose [src] has no value or
    a value that is not a string literal, makes [parseModule] throw
    [WxmlTagSrcAttributeError] with the code and the position of the tag,
    for [import] and [include] alike; nothing is read, and the diagnostics
    list is left as it was. *)
Theorem parseModule_src_required `{Utils} `{Path.Lib} `{Wxml}
    (fs : gmap string FsEntry) (jsx : NodePath) (dirPath : string)
    (type : ModuleType) (errors : list string)
    tag attrs sc pos closing children selfClosing position :
  node jsx
  = JSXElement (JSXOpeningElement tag attrs sc pos) closing children
      selfClosing position ->
  (findAttribute "src" attrs = None ->
   parseModule fs jsx dirPath type errors
   = (Throw (IReportError (typeName type +:+ " 标签必须包含 `src` 属性")
               "WxmlTagSrcAttributeError" "WXML_FILE" (codeOf (node jsx))
               (positionOf position)),
      errors))
  /\ (forall srcName value,
        findAttribute "src" attrs = Some (JSXAttribute srcName value) ->
        (forall literal, value ≠ Some (StringLiteral literal)) ->
        parseModule fs jsx dirPath type errors
        = (Throw (IReportError
                    (typeName type +:+ " 标签的 src 属性值必须是一个字符串")
                    "WxmlTagSrcAttributeError" "WXML_FILE" (codeOf (node jsx))
                    (positionOf position)),
           errors)).
Proof.
  intros Hn. unfold parseModule. rewrite Hn. split.
  - intros ->. reflexivity.
  - intros srcName value -> Hvalue.
    destruct value as [[]|]; try reflexivity.
    exfalso. eapply Hvalue. reflexivity.
Qed.

Lemma parseModule_src_required_witness :
  @parseModule Sample.utils Posix.paths Sample.wxml Posix.files
    (Posix.tag "include" []) "/project/pages" include ["earlier"]
  = (Throw (IReportError "include 标签必须包含 `src` 属性"
              "WxmlTagSrcAttributeError" "WXML_FILE" ""
              {| col := 2; row := 7 |}),
     ["earlier"]).
Proof.
  destruct (@parseModule_src_required Sample.utils Posix.paths Sample.wxml
              Posix.files (Posix.tag "include" []) "/project/pages" include
              ["earlier"] (JSXIdentifier "include") [] true None None [] true
              (Some {| line := 7; column := 2 |}) eq_refl) as [Hnone _].
  apply Hnone. reflexivity.
Defined.

(** X18: a [src] that starts with a slash and names nothing that exists
    under the project root, with or without [.wxml], makes [parseModule]
    throw [ImportSrcPathFormatError] with the code and the position of the
    tag: the [Error] of [getSrcRelPath] is caught and its message dropped.
    The tag is not removed and no diagnostic is pushed. *)
Theorem parseModule_rooted_missing `{Utils} `{Path.Lib} `{Wxml}
    (fs : gmap string FsEntry) (jsx : NodePath) (dirPath : string)
    (type : ModuleType) (errors : list string)
    tag attrs sc pos closing children selfClosing position srcName value :
  node jsx
  = JSXElement (JSXOpeningElement tag attrs sc pos) closing children
      selfClosing position ->
  findAttribute "src" attrs
  = Some (JSXAttribute srcName (Some (StringLiteral value))) ->
  JsString.startsWith value "/" = true ->
  existsSync fs (Path.join rootPath (JsString.slice 1 value)) = false ->
  existsSync fs (Path.join rootPath (JsString.slice 1 value) +:+ ".wxml")
  = false ->
  parseModule fs jsx dirPath type errors
  = (Throw (IReportError "相对路径解析失败" "ImportSrcPathFormatError"
              "WXML_FILE" (codeOf (node jsx)) (positionOf position)),
     errors).
Proof.
  intros Hn Hsrc Hroot Hfile Hwxml. unfold parseModule. rewrite Hn, Hsrc.
  unfold getSrcRelPath. rewrite Hroot, Hfile, Hwxml. reflexivity.
Qed.

Lemma parseModule_rooted_missing_witness :
  @parseModule Sample.utils Posix.paths Sample.wxml Posix.files
    (Posix.tag "import" [Sample.attr "src" (StringLiteral "/tpl/none")])
    "/project/pages" import ["earlier"]
  = (Throw (IReportError "相对路径解析失败" "ImportSrcPathFormatError"
              "WXML_FILE" "" {| col := 2; row := 7 |}),
     ["earlier"]).
Proof.
  apply (@parseModule_rooted_missing Sample.utils Posix.paths Sample.wxml
           Posix.files
           (Posix.tag "import" [Sample.attr "src" (StringLiteral "/tpl/none")])
           "/project/pages" import ["earlier"] (JSXIdentifier "import")
           [Sample.attr "src" (StringLiteral "/tpl/none")] true None None []
           true (Some {| line := 7; column := 2 |}) (JSXIdentifier "src")
           "/tpl/none"); reflexivity.
Defined.

(** X19: on a path with a parent container, an [include] whose [src] is
    a string literal that [getSrcRelPath] resolves and whose target cannot
    be read, or is read as the empty text, is removed from the tree and
    [parseModule] returns [undefined], without the parser being asked: the
    diagnostics list gets the one diagnostic of [getWxmlSource] in the first
    case and nothing in the second. *)
Theorem parseModule_include_no_text `{Utils} `{Path.Lib} `{Wxml}
    (fs : gmap string FsEntry) (jsx : NodePath) (dirPath : string)
    (errors : list string)
    tag attrs sc pos closing children selfClosing position
    srcName value srcValue :
  container jsx = true ->
  node jsx
  = JSXElement (JSXOpeningElement tag attrs sc pos) closing children
      selfClosing position ->
  findAttribute "src" attrs
  = Some (JSXAttribute srcName (Some (StringLiteral value))) ->
  getSrcRelPath fs (moduleDir dirPath) value = Normal srcValue ->
  ((exists e,
      readFileSync fs (targetFile (moduleDir dirPath) srcValue) = Throw e) ->
   parseModule fs jsx dirPath include errors
   = (Normal (Removed, None),
      errors ++ [notFoundDiagnostic "include" srcValue]))
  /\ (readFileSync fs (targetFile (moduleDir dirPath) srcValue)
      = Normal EmptyString ->
      parseModule fs jsx dirPath include errors
      = (Normal (Removed, None), errors)).
Proof.
  intros Hc Hn Hsrc Hrel. unfold parseModule, remove. rewrite Hc, Hn, Hsrc.
  fold (moduleDir dirPath). rewrite Hrel. cbn [typeName]. split.
  - intros [e Hread].
    rewrite (getWxmlSource_unreadable fs (moduleDir dirPath) srcValue
               "include" errors e Hread). reflexivity.
  - intros Hread.
    rewrite (getWxmlSource_readable fs (moduleDir dirPath) srcValue
               "include" errors EmptyString Hread). reflexivity.
Qed.

Lemma parseModule_include_no_text_witness :
  @parseModule Sample.utils Posix.paths Sample.wxml Posix.files
    (Posix.tag "include" [Sample.attr "src" (StringLiteral "./none")])
    "/project/pages/index.wxml" include ["earlier"]
  = (Normal (Removed, None),
     ["earlier"] ++ [notFoundDiagnostic "include" "./none"])
  /\ @parseModule Sample.utils Posix.paths Sample.wxml Posix.files
       (Posix.tag "include" [Sample.attr "src" (StringLiteral "./empty")])
       "/project/pages/index.wxml" include ["earlier"]
     = (Normal (Removed, None), ["earlier"]).
Proof.
  split.
  - apply (@parseModule_include_no_text Sample.utils Posix.paths Sample.wxml
             Posix.files
             (Posix.tag "include" [Sample.attr "src" (StringLiteral "./none")])
             "/project/pages/index.wxml" ["earlier"] (JSXIdentifier "include")
             [Sample.attr "src" (StringLiteral "./none")] true None None []
             true (Some {| line := 7; column := 2 |}) (JSXIdentifier "src")
             "./none" "./none"); try reflexivity.
    eexists. reflexivity.
  - apply (@parseModule_include_no_text Sample.utils Posix.paths Sample.wxml
             Posix.files
             (Posix.tag "include" [Sample.attr "src" (StringLiteral "./empty")])
             "/project/pages/index.wxml" ["earlier"] (JSXIdentifier "include")
             [Sample.attr "src" (StringLiteral "./empty")] true None None []
             true (Some {| line := 7; column := 2 |}) (JSXIdentifier "src")
             "./empty" "./empty"); reflexivity.
Defined.

(** X20: what [parseModule] returns follows the type of the tag, on a
    path with a parent container, where [path.remove] and
    [path.replaceWith] succeed.  A call for [import] that completes has
    removed the tag and returns a list of import records, never
    [undefined]; a call for [include] that completes returns [undefined],
    never records, and has removed or replaced the tag. *)
Theorem parseModule_value_shape `{Utils} `{Path.Lib} `{Wxml}
    (fs : gmap string FsEntry) (jsx : NodePath) (dirPath : string)
    (type : ModuleType) (errors errors' : list string) (m : Mutation)
    (r : option (list Imports)) :
  container jsx = true ->
  parseModule fs jsx dirPath type errors = (Normal (m, r), errors') ->
  match type with
  | import => m = Removed /\ exists imports, r = Some imports
  | include => r = None /\ (m = Removed \/ exists n, m = Replaced n)
  end.
Proof.
  intros Hc. unfold parseModule, remove, replaceWith. rewrite Hc.
  destruct (node jsx) as [| | | | | | |
                          |[tag attrs sc pos] closing children sc' position|];
    try discriminate.
  destruct (findAttribute "src" attrs) as [[srcName [[v| | | | | | | | |]|]|]|];
    try discriminate.
  destruct (getSrcRelPath fs _ v) as [srcValue|e]; [|discriminate].
  destruct type.
  - destruct (getWxmlSource fs _ srcValue _ errors) as [wxmlStr errors1].
    destruct (String.eqb wxmlStr "").
    + intros Hret. injection Hret as <- <- _. auto.
    + destruct (parseWXML _ wxmlStr true errors1) as [[[wxml imports]|e] errors2];
        [|discriminate].
      intros Hret. injection Hret as <- <- _. split; [reflexivity|].
      right. destruct wxml; cbn; eauto.
  - destruct (getWxmlSource fs _ srcValue _ errors) as [wxml errors1].
    destruct (parseWXML _ wxml true errors1) as [[[root imports]|e] errors2];
      [|discriminate].
    intros Hret. injection Hret as <- <- _. cbn. eauto.
Qed.

Lemma parseModule_value_shape_witness :
  @parseModule Sample.utils Posix.paths Sample.wxml Posix.files
    (Posix.tag "import" [Sample.attr "src" (StringLiteral "./row")])
    "/project/pages" import ["earlier"]
  = (Normal (Removed, Some []), ["earlier"])
  /\ Removed = Removed
  /\ exists imports, Some (@nil string) = Some imports.
Proof.
  split; [reflexivity|].
  apply (@parseModule_value_shape Sample.utils Posix.paths Sample.wxml
           Posix.files
           (Posix.tag "import" [Sample.attr "src" (StringLiteral "./row")])
           "/project/pages" import ["earlier"] ["earlier"] Removed (Some [])).
  - reflexivity.
  - reflexivity.
Defined.

(** X21: a [dirPath] that names a file stands for its directory:
    when [dirPath] has an extension and its directory has none,
    [parseModule] does for [dirPath] what it does for the directory. *)
Theorem parseModule_dirPath_file `{Utils} `{Path.Lib} `{Wxml}
    (fs : gmap string FsEntry) (jsx : NodePath) (dirPath : string)
    (type : ModuleType) (errors : list string) :
  Path.extname dirPath ≠ EmptyString ->
  Path.extname (Path.dirname dirPath) = EmptyString ->
  parseModule fs jsx dirPath type errors
  = parseModule fs jsx (Path.dirname dirPath) type errors.
Proof.
  intros Hfile Hdir. unfold parseModule.
  apply String.eqb_neq in Hfile. rewrite Hfile, Hdir. reflexivity.
Qed.

Lemma parseModule_dirPath_file_witness :
  @parseModule Sample.utils Posix.paths Sample.wxml Posix.files
    (Posix.tag "import" [Sample.attr "src" (StringLiteral "./none")])
    "/project/pages/index.wxml" import []
  = @parseModule Sample.utils Posix.paths Sample.wxml Posix.files
      (Posix.tag "import" [Sample.attr "src" (StringLiteral "./none")])
      "/project/pages" import [].
Proof.
  apply (@parseModule_dirPath_file Sample.utils Posix.paths Sample.wxml
           Posix.files
           (Posix.tag "import" [Sample.attr "src" (StringLiteral "./none")])
           "/project/pages/index.wxml" import []).
  - discriminate.
  - reflexivity.
Defined.

(** X22: an [import] whose [src] is a string literal that
    [getSrcRelPath] resolves and whose target is read hands the text, the
    resolved path and the diagnostics list unchanged to the parser in
    module mode.  When the parser completes, its import records are
    returned, and the tag is removed when its path has a parent container
    and left in the tree when it has none; when the parser throws, the
    error goes to the caller and the tag stays.  In both cases the
    diagnostics list is the one the parser leaves. *)
Theorem parseModule_import_read `{Utils} `{Path.Lib} `{Wxml}
    (fs : gmap string FsEntry) (jsx : NodePath) (dirPath : string)
    (errors : list string)
    tag attrs sc pos closing children selfClosing position
    srcName value srcValue file :
  node jsx
  = JSXElement (JSXOpeningElement tag attrs sc pos) closing children
      selfClosing position ->
  findAttribute "src" attrs
  = Some (JSXAttribute srcName (Some (StringLiteral value))) ->
  getSrcRelPath fs (moduleDir dirPath) value = Normal srcValue ->
  readFileSync fs (targetFile (moduleDir dirPath) srcValue) = Normal file ->
  parseModule fs jsx dirPath import errors
  = match parseWXML (Path.resolve (moduleDir dirPath) srcValue) file true
            errors with
    | (Normal (_, imports), errors') =>
        (Normal (if container jsx then Removed else Untouched, Some imports),
         errors')
    | (Throw e, errors') => (Throw e, errors')
    end.
Proof.
  intros Hn Hsrc Hrel Hread. unfold parseModule. rewrite Hn, Hsrc.
  fold (moduleDir dirPath). rewrite Hrel. cbn [typeName].
  rewrite (getWxmlSource_readable fs (moduleDir dirPath) srcValue "import"
             errors file Hread).
  destruct (parseWXML _ file true errors) as [[[wxml imports]|e] errors'];
    [|reflexivity].
  rewrite try_ignore_remove. reflexivity.
Qed.

Lemma parseModule_import_read_witness :
  @parseModule Sample.utils Posix.paths Sample.wxml Posix.files
    (Posix.tag "import" [Sample.attr "src" (StringLiteral "./row")])
    "/project/pages" import ["earlier"]
  = (Normal (Removed, Some []), ["earlier"]).
Proof.
  apply (@parseModule_import_read Sample.utils Posix.paths Sample.wxml
           Posix.files
           (Posix.tag "import" [Sample.attr "src" (StringLiteral "./row")])
           "/project/pages" ["earlier"] (JSXIdentifier "import")
           [Sample.attr "src" (StringLiteral "./row")] true None None []
           true (Some {| line := 7; column := 2 |}) (JSXIdentifier "src")
           "./row" "./row" "<view>row</view>"); reflexivity.
Defined.

(** X23: [getWxmlSource] only appends to the diagnostics list, and at
    most one entry: either the list is returned as it was, or it is
    returned with the diagnostic of the tag at its end, and then the text
    returned is empty. *)
Theorem getWxmlSource_append_only `{Path.Lib}
    (fs : gmap string FsEntry) (dirPath src type : string)
    (errors : list string) :
  snd (getWxmlSource fs dirPath src type errors) = errors
  \/ (snd (getWxmlSource fs dirPath src type errors)
      = errors ++ [notFoundDiagnostic type src]
      /\ fst (getWxmlSource fs dirPath src type errors) = EmptyString).
Proof.
  unfold getWxmlSource.
  destruct (readFileSync fs _) as [file|e]; [left|right; split]; reflexivity.
Qed.

(** X24: for a path without an extension [getWxmlSource] reads the file
    with [.wxml] appended and no other: when that file is missing the tag
    degrades to the empty text and a diagnostic, whether or not a file of
    the exact name exists. *)
Theorem getWxmlSource_extensionless `{Path.Lib}
    (fs : gmap string FsEntry) (dirPath src type : string)
    (errors : list string) :
  Path.extname (Path.join dirPath src) = EmptyString ->
  fs !! (Path.join dirPath src +:+ ".wxml") = None ->
  getWxmlSource fs dirPath src type errors
  = (EmptyString, errors ++ [notFoundDiagnostic type src]).
Proof.
  intros Hext Hmissing.
  apply (getWxmlSource_unreadable fs dirPath src type errors
           (SystemError "open" (Path.join dirPath src +:+ ".wxml"))).
  unfold targetFile, readFileSync. rewrite Hext. cbn [String.eqb].
  rewrite Hmissing. reflexivity.
Qed.

Lemma getWxmlSource_extensionless_witness :
  Posix.files !! "/project/lib" = Some Directory
  /\ @getWxmlSource Posix.paths Posix.files "/project" "lib" "import" []
     = (EmptyString, [notFoundDiagnostic "import" "lib"]).
Proof.
  split; [reflexivity|].
  apply (@getWxmlSource_extensionless Posix.paths Posix.files "/project"
           "lib" "import" []); reflexivity.
Defined.

(** ** More on the sanitizer, the pre-scanner and the resolver *)

(** X25: on a name that matches [/wx/i], only what follows its first two
    characters counts, wherever the match is: two matching names with the
    same tail are given the same identifier, whatever their [pascal]
    arguments. *)
Theorem buildTemplateName_tail_only `{Utils} (fuel : nat)
    (name1 name2 : string) (pascal1 pascal2 : bool) :
  test_wx name1 = true ->
  test_wx name2 = true ->
  JsString.slice 2 name1 = JsString.slice 2 name2 ->
  buildTemplateName fuel name1 pascal1 = buildTemplateName fuel name2 pascal2.
Proof.
  intros H1 H2 Htail. destruct fuel as [|fuel]; [reflexivity|].
  cbn [buildTemplateName]. rewrite H1, H2, Htail. reflexivity.
Qed.

Lemma buildTemplateName_tail_only_witness :
  @buildTemplateName Sample.utils 2 "awx-row" false = Some "TaroXRowTmpl"
  /\ @buildTemplateName Sample.utils 2 "awx-row" false
     = @buildTemplateName Sample.utils 2 "WXx-row" true.
Proof.
  split; [reflexivity|].
  apply (@buildTemplateName_tail_only Sample.utils 2 "awx-row" "WXx-row"
           false true); reflexivity.
Defined.

Lemma onJSXAttribute_adds (an : JSXName) (f : string) (computed : bool)
    (st : list string * list string) :
  f ∈ fst (onJSXAttribute
             (JSXAttribute an
                (Some (JSXExpressionContainer
                         (MemberExpression ThisExpression (Identifier f)
                            computed))))
             st).
Proof.
  cbn [onJSXAttribute]. destruct (Set_has (fst st) f) eqn:Hf; cbn [negb fst].
  - apply Set_has_true, Hf.
  - apply elem_of_Set_add. left. reflexivity.
Qed.

Lemma traverseAttributes_visits `{Utils} (fuel : nat) (root : Node)
    (a : Attribute) (attrs : list Attribute) :
  a ∈ attrs ->
  forall st st',
    (fix each (l : list Attribute) (st : list string * list string)
       : M (list string * list string) :=
       match l with
       | [] => ret st
       | a :: rest =>
           let! st' := traverseAttribute fuel root a st in each rest st'
       end) attrs st = Some (Normal st') ->
    exists st0, grows (onJSXAttribute a st0) st'.
Proof.
  induction attrs as [|x rest IH]; intros Hin st st' Hst; [inversion Hin|].
  destruct (traverseAttribute fuel root x st) as [[st2|e2]|] eqn:Hx;
    try discriminate.
  apply elem_of_cons in Hin as [->|Hin].
  - exists st. apply (grows_trans _ st2).
    + destruct x as [an [v|]|arg]; cbn [traverseAttribute] in Hx.
      * exact (traverse_grows fuel root v _ _ Hx).
      * injection Hx as <-. apply grows_refl.
      * cbn [onJSXAttribute]. exact (traverse_grows fuel root arg _ _ Hx).
    + exact (traverseAttributes_grows fuel root rest st2 st' Hst).
  - exact (IH Hin st2 st' Hst).
Qed.

(** X26: when [preParseTemplate] returns a result, every method bound as
    [this.f] in the value of an attribute of the template's own opening
    element is among the [funcs] of the result. *)
Theorem preParseTemplate_own_funcs `{Utils} (fuel : nat) (path : NodePath)
    tag attrs sc pos closing children selfClosing position attrName f
    computed (pre : PreParsed) :
  node path
  = JSXElement (JSXOpeningElement tag attrs sc pos) closing children
      selfClosing position ->
  JSXAttribute attrName
    (Some (JSXExpressionContainer
             (MemberExpression ThisExpression (Identifier f) computed)))
  ∈ attrs ->
  preParseTemplate fuel path = ret (Some pre) ->
  f ∈ pre_funcs pre.
Proof.
  intros Hn Hattr. unfold preParseTemplate.
  destruct (container path); cbn [negb]; [|discriminate].
  rewrite Hn.
  destruct (findAttribute "name" attrs) as [[an [[v| | | | | | | | |]|]|]|];
    try discriminate.
  destruct (buildTemplateName fuel v true) as [templateName|];
    cbn [lift_fuel ret]; [|discriminate].
  destruct (traverse fuel _ _ ([], [])) as [[st|e1]|] eqn:Hscan;
    try discriminate.
  intros Hpre. injection Hpre as <-. cbn [pre_funcs].
  cbn [traverse] in Hscan.
  destruct (traverseOpening fuel _ _ ([], [])) as [[st1|e1]|] eqn:Ho;
    try discriminate.
  assert (grows st1 st) as [Hst1 _].
  { apply (traverse_grows fuel
             (JSXElement (JSXOpeningElement tag attrs sc pos) closing children
                selfClosing position)
             (OtherNode EmptyString children)).
    exact Hscan. }
  cbn [traverseOpening] in Ho.
  destruct (onJSXOpeningElement fuel _ _ ([], [])) as [[st0|e0]|];
    try discriminate.
  destruct (traverseAttributes_visits fuel _ _ attrs Hattr st0 st1 Ho)
    as [sta [Hsta _]].
  apply Hst1, Hsta, onJSXAttribute_adds.
Qed.

Lemma preParseTemplate_own_funcs_witness :
  @preParseTemplate Sample.utils 1
    (Sample.attached
       (Sample.template
          [Sample.attr "name" (StringLiteral "row");
           Sample.attr "bindtap"
             (JSXExpressionContainer
                (MemberExpression ThisExpression (Identifier "onTap")
                   false))]))
  = ret (Some {| pre_name := "RowTmpl"; pre_funcs := ["onTap"];
                 pre_applies := [] |})
  /\ "onTap" ∈ ["onTap"].
Proof.
  split; [reflexivity|].
  apply (@preParseTemplate_own_funcs Sample.utils 1
           (Sample.attached
              (Sample.template
                 [Sample.attr "name" (StringLiteral "row");
                  Sample.attr "bindtap"
                    (JSXExpressionContainer
                       (MemberExpression ThisExpression (Identifier "onTap")
                          false))]))
           (JSXIdentifier "template")
           [Sample.attr "name" (StringLiteral "row");
            Sample.attr "bindtap"
              (JSXExpressionContainer
                 (MemberExpression ThisExpression (Identifier "onTap")
                    false))]
           false None (Some (JSXIdentifier "template")) [] false
           (Some {| line := 3; column := 4 |}) (JSXIdentifier "bindtap")
           "onTap" false
           {| pre_name := "RowTmpl"; pre_funcs := ["onTap"];
              pre_applies := [] |}).
  - reflexivity.
  - right. left.
  - reflexivity.
Defined.

(** X27: on a path with a parent container, a node with a [name]
    attribute is never replaced and never left in place by a call that
    completes: [parseTemplate] removes it and returns a value whose
    [tmplName] is the literal of [name]; or it throws, either the plain
    [Error] of a [name] that is not a string literal or what the traversal
    of the WXML visitor throws; or it does not return: then [name] is a
    string literal that has [wx], in either case, after its first two
    characters, on which the recursion of [buildTemplateName] does not end,
    whatever the fuel (at run time the stack is exhausted and a
    [RangeError] is thrown). *)
Theorem parseTemplate_definition_outcomes `{Utils} `{Wxml} (fuel : nat)
    (path : NodePath) (dirPath : string) (wxses : list WXS) tag attrs sc pos
    closing children selfClosing position attrName value :
  container path = true ->
  node path
  = JSXElement (JSXOpeningElement tag attrs sc pos) closing children
      selfClosing position ->
  findAttribute "name" attrs = Some (JSXAttribute attrName value) ->
  match parseTemplate (S (S fuel)) path dirPath wxses with
  | None =>
      exists literal,
        value = Some (StringLiteral literal)
        /\ test_wx (JsString.slice 2 literal) = true
        /\ forall fuel', buildTemplateName fuel' literal true = None
  | Some (Normal (m, r)) =>
      m = Removed
      /\ exists result,
           r = Some result /\ value = Some (StringLiteral (tmplName result))
  | Some (Throw e) =>
      e = Error "template 的 `name` 属性只能是字符串"
      \/ traverseWxmlVisitor (node path) dirPath = Throw e
  end.
Proof.
  intros Hc Hn Hname. unfold parseTemplate, remove. rewrite Hc, Hn, Hname.
  destruct value as [[v| | | | | | | | |]|]; try (left; reflexivity).
  destruct (buildTemplateName (S (S fuel)) v true) as [className|]
    eqn:Hbuild; cbn [lift_fuel ret].
  - rewrite <- Hn.
    destruct (traverseWxmlVisitor (node path) dirPath) as [visited|e].
    + split; [reflexivity|]. eexists. split; reflexivity.
    + right. reflexivity.
  - apply buildTemplateName_None in Hbuild. exists v.
    split_and!; [reflexivity|exact Hbuild|].
    intros fuel'. apply buildTemplateName_loops, Hbuild.
Qed.

Lemma parseTemplate_definition_outcomes_witness :
  match
    @parseTemplate Sample.utils Sample.wxml 2
      (Sample.attached
         (Sample.template
            [Sample.attr "name" (StringLiteral "row");
             Sample.attr "is" (StringLiteral "cell")]))
      "/project/pages" []
  with
  | Some (Normal (m, r)) =>
      m = Removed
      /\ exists result,
           r = Some result
           /\ Some (StringLiteral "row")
              = Some (StringLiteral (tmplName result))
  | _ => False
  end.
Proof.
  exact (@parseTemplate_definition_outcomes Sample.utils Sample.wxml 0
           (Sample.attached
              (Sample.template
                 [Sample.attr "name" (StringLiteral "row");
                  Sample.attr "is" (StringLiteral "cell")]))
           "/project/pages" [] (JSXIdentifier "template")
           [Sample.attr "name" (StringLiteral "row");
            Sample.attr "is" (StringLiteral "cell")]
           false None (Some (JSXIdentifier "template")) [] false
           (Some {| line := 3; column := 4 |}) (JSXIdentifier "name")
           (Some (StringLiteral "row")) eq_refl eq_refl eq_refl).
Defined.
